(** * Authorization and authentication core of the blog service

    A shallow embedding of [main.py], [models.py] and [forms.py]:
    the role classifier, the route guard, registration, login, the
    badge/PIN API and the administrative delete, with the properties
    the specification states about them.

    Python [str] values are modelled as [string]; [None] as [option];
    a Python [dict] as a [gmap]; the SQL tables as lists of rows in
    insertion order. *)

From Stdlib Require Import ZArith Ascii.
From stdpp Require Import base option list strings gmap pretty.

Open Scope string_scope.

(** ** Role classifier ([determine_user_category]) *)

Module Classifier.

(** The [categories] dictionary literal of the source. *)
Definition categories : gmap string string :=
  <["1" := "executive"]> (
  <["2" := "vip"]> (
  <["3" := "director"]> (
  <["4" := "manager"]> (
  <["5" := "newHire"]> (
  <["6" := "campaign"]> (
  <["7" := "regular"]> ∅)))))).

(** [not badge_number] holds for [None] and for the empty string. *)
Definition determine_user_category (badge_number : option string) : string :=
  match badge_number with
  | None => "unknown"
  | Some "" => "unknown"
  | Some (String first_digit _) =>
      default "unknown" (categories !! String first_digit "")
  end.

(** The mapping as the specification words it: a table on the first
    character. *)
Definition role_of_first_char (c : ascii) : string :=
  if decide (c = "1"%char) then "executive"
  else if decide (c = "2"%char) then "vip"
  else if decide (c = "3"%char) then "director"
  else if decide (c = "4"%char) then "manager"
  else if decide (c = "5"%char) then "newHire"
  else if decide (c = "6"%char) then "campaign"
  else if decide (c = "7"%char) then "regular"
  else "unknown".

Definition classify_spec (b : option string) : string :=
  match b with
  | None => "unknown"
  | Some "" => "unknown"
  | Some (String c _) => role_of_first_char c
  end.

End Classifier.

(** ** Data model ([models.py]) *)

(** Rows of the [users] table.  [category] and [company] are nullable. *)
Module User.
Record t := mk {
  id : Z;
  email : string;
  password : string;
  name : string;
  badge : string;
  pin : string;
  category : option string;
  company : option string
}.
End User.

(** Rows of the [blog_posts] table; [author_id] is a foreign key to
    [users] and, as a [Mapped[int]] column, NOT NULL. *)
Module BlogPost.
Record t := mk {
  id : Z;
  author_id : Z;
  title : string;
  subtitle : string;
  date : string;
  body : string;
  img_url : string
}.
End BlogPost.

(** Rows of the [comments] table; both foreign keys are [Mapped[int]]
    columns, hence NOT NULL. *)
Module Comment.
Record t := mk {
  id : Z;
  text : string;
  author_id : Z;
  post_id : Z
}.
End Comment.

(** What a handler can read and change: the three tables, the identity
    flask_login's [current_user] resolves to ([None] for the anonymous
    user) and the queue of flashed messages with their categories. *)
Record World := mkWorld {
  users : list User.t;
  blog_posts : list BlogPost.t;
  comments : list Comment.t;
  current_user : option User.t;
  flashes : list (string * string)
}.

Inductive Method := GET | POST.

(** The part of a request the handlers look at: the method,
    [request.url], [request.args.get('next')] and what
    [request.get_json()] returns: [None], or the JSON object of the
    endpoint's contract, whose fields hold strings or null. *)
Record Request := mkRequest {
  method : Method;
  url : string;
  args_next : option string;
  get_json : option (gmap string (option string))
}.

(** [url_for(endpoint, **values)] is kept symbolic; [Raw] is a URL given
    as a string. *)
Inductive Url :=
| UrlFor (endpoint : string) (values : list (string * string))
| Raw (target : string).

Inductive JsonValue :=
| JStr (s : string)
| JInt (n : Z)
| JNull.

Inductive Response :=
| Redirect (location : Url)
| Render (template : string)
| Jsonify (body : list (string * JsonValue)) (status : Z)
| Abort (code : Z).

(** Handlers are state transformers over [World]. *)
Definition handler (A : Type) : Type := World -> A * World.

#[global] Instance handler_ret : MRet handler := fun A a w => (a, w).
#[global] Instance handler_bind : MBind handler :=
  fun A B f m w => let '(a, w') := m w in f a w'.

Definition get_world : handler World := fun w => (w, w).

(** [flash(message, category)]; flask's default category is "message". *)
Definition flash (message category : string) : handler unit :=
  fun w => (tt, mkWorld (users w) (blog_posts w) (comments w)
                        (current_user w) (flashes w ++ [(message, category)])).

(** [login_user(user)] and [logout_user()]. *)
Definition login_user (u : User.t) : handler unit :=
  fun w => (tt, mkWorld (users w) (blog_posts w) (comments w)
                        (Some u) (flashes w)).

Definition logout_user : handler unit :=
  fun w => (tt, mkWorld (users w) (blog_posts w) (comments w)
                        None (flashes w)).

(** [db.select(User).where(User.email == e)] followed by [.scalar()]:
    the first matching row, if any. *)
Definition find_user_by_email (e : string) (w : World) : option User.t :=
  head (filter (fun u => User.email u = e) (users w)).

Definition find_user_by_badge (b : string) (w : World) : option User.t :=
  head (filter (fun u => User.badge u = b) (users w)).

(** [db.get_or_404(User, user_id)] looks the row up by primary key. *)
Definition get_user (user_id : Z) (w : World) : option User.t :=
  head (filter (fun u => User.id u = user_id) (users w)).

(** ** Form validation ([forms.py]) *)

Module Validators.

(** [str.isspace] on the code points below 256. *)
Definition py_isspace (c : ascii) : bool :=
  let n := N_of_ascii c in
  ((9 <=? n) && (n <=? 13) || (28 <=? n) && (n <=? 32)
   || (n =? 133) || (n =? 160))%N.

Fixpoint lstrip (s : string) : string :=
  match s with
  | "" => ""
  | String c rest => if py_isspace c then lstrip rest else s
  end.

(** [str.strip()]. *)
Definition strip (s : string) : string :=
  String.rev (lstrip (String.rev (lstrip s))).

(** [bool(s)] for a Python string. *)
Definition truthy (s : string) : bool :=
  match s with "" => false | _ => true end.

(** [DataRequired]: [field.data and field.data.strip()]. *)
Definition DataRequired (data : string) : bool :=
  truthy data && truthy (strip data).

(** [Length(min, max)]; [None] stands for the default -1 (no bound). *)
Definition Length (min max : option nat) (data : string) : bool :=
  let length := String.length data in
  match min with Some lo => Nat.leb lo length | None => true end
  && match max with Some hi => Nat.leb length hi | None => true end.

Definition is_digit_0_9 (c : ascii) : bool :=
  let n := N_of_ascii c in ((48 <=? n) && (n <=? 57))%N.

(** Consume exactly [k] characters of the class [[0-9]]. *)
Fixpoint match_digits (k : nat) (s : string) : option string :=
  match k with
  | O => Some s
  | S k' =>
      match s with
      | String c rest => if is_digit_0_9 c then match_digits k' rest else None
      | "" => None
      end
  end.

Definition newline : ascii := "010"%char.

(** Python's [$] outside MULTILINE mode: it matches at the end of the
    string and also just before a newline that ends the string. *)
Definition at_dollar (s : string) : bool :=
  match s with
  | "" => true
  | String c "" => bool_decide (c = newline)
  | _ => false
  end.

(** [re.match(r'^[0-9]{4,6}$', data)]: the greedy repetition tries six,
    five, then four digits, each followed by [$]. *)
Definition Regexp_pin (data : string) : bool :=
  existsb (fun k => match match_digits k data with
                    | Some rest => at_dollar rest
                    | None => false
                    end) [6; 5; 4]%nat.

(** The three validators of the [pin] field; a failing [DataRequired]
    stops the chain, the other two both have to pass. *)
Definition validate_pin (data : string) : bool :=
  DataRequired data && Length (Some 4%nat) (Some 6%nat) data && Regexp_pin data.

End Validators.

(** What the specification asks of a PIN: a string of four to six
    decimal digits and nothing else. *)
Fixpoint all_digits (data : string) : bool :=
  match data with
  | "" => true
  | String c rest => Validators.is_digit_0_9 c && all_digits rest
  end.

Definition pin_4_to_6_digits (data : string) : bool :=
  Nat.leb 4 (String.length data) && Nat.leb (String.length data) 6
  && all_digits data.

(** Submitted field data; a field that was not sent holds the empty
    string. *)
Module RegisterForm.
Record t := mk {
  email : string;
  password : string;
  name : string;
  badge : string;
  company : string;
  pin : string
}.

Definition validate (form : t) : bool :=
  Validators.DataRequired (email form)
  && Validators.DataRequired (password form)
  && Validators.DataRequired (name form)
  && Validators.DataRequired (badge form)
  && Validators.Length None (Some 150%nat) (company form)
  && Validators.validate_pin (pin form).
End RegisterForm.

Module LoginForm.
Record t := mk {
  email : string;
  password : string
}.

Definition validate (form : t) : bool :=
  Validators.DataRequired (email form)
  && Validators.DataRequired (password form).
End LoginForm.

(** [form.validate_on_submit()] is [is_submitted() and validate()]; the
    routes accept GET and POST, of which only POST is a submission. *)
Definition is_submitted (req : Request) : bool :=
  match method req with POST => true | GET => false end.

(** ** Credential hasher (werkzeug's interface) *)

(** [generate_password_hash(password, method='pbkdf2:sha256',
    salt_length=8)] with the salt it draws made an argument, and
    [check_password_hash(pwhash, password)]. *)
Class Hasher := {
  generate_password_hash : string -> string -> string;
  check_password_hash : string -> string -> bool
}.

(** ** Request handlers ([main.py]) *)

Section Handlers.
Context `{Hasher}.

(** [current_user.category not in required_roles], negated. *)
Definition in_roles (category : option string) (required_roles : list string) : bool :=
  match category with
  | Some c => bool_decide (c ∈ required_roles)
  | None => false
  end.

(** The decorator applied to a view [f], for the request at hand;
    [required_roles] is the tuple of role names it was given. *)
Definition roles_required (required_roles : list string)
    (f : handler Response) (req : Request) : handler Response :=
  w ← get_world;
  match current_user w with
  | None =>
      flash "You must be logged in to view this page." "warning";;
      mret (Redirect (UrlFor "blog.login" [("next", url req)]))
  | Some user =>
      if negb (in_roles (User.category user) required_roles)
      then mret (Abort 403)
      else f
  end.

(** The primary key the database gives to a new [users] row. *)
Definition next_user_id (w : World) : Z :=
  (1 + foldr Z.max 0 (User.id <$> users w))%Z.

(** [db.session.add(new_user); db.session.commit()]. *)
Definition add_user (new_user : Z -> User.t) : handler unit :=
  fun w => (tt, mkWorld (users w ++ [new_user (next_user_id w)])
                        (blog_posts w) (comments w)
                        (current_user w) (flashes w)).

(** The hashing, the classification and the [User(...)] constructor call
    of [register]; [salt_password] and [salt_pin] are the salts the two
    calls of [generate_password_hash] draw, [new_id] the primary key the
    row gets. *)
Definition new_user (salt_password salt_pin : string)
    (form : RegisterForm.t) (new_id : Z) : User.t :=
  let hash_and_salted_password :=
    generate_password_hash (RegisterForm.password form) salt_password in
  let hashed_pin :=
    generate_password_hash (RegisterForm.pin form) salt_pin in
  let user_category :=
    Classifier.determine_user_category (Some (RegisterForm.badge form)) in
  User.mk new_id
          (RegisterForm.email form)
          hash_and_salted_password
          (RegisterForm.name form)
          (RegisterForm.badge form)
          hashed_pin
          (Some user_category)
          (if Validators.truthy (RegisterForm.company form)
           then Some (RegisterForm.company form) else None).

Definition register (salt_password salt_pin : string)
    (req : Request) (form : RegisterForm.t) : handler Response :=
  if is_submitted req && RegisterForm.validate form then
    w ← get_world;
    match find_user_by_email (RegisterForm.email form) w with
    | Some _ =>
        flash "You've already signed up with that email, log in instead!" "message";;
        mret (Redirect (UrlFor "blog.login" []))
    | None =>
        match find_user_by_badge (RegisterForm.badge form) w with
        | Some _ =>
            flash "This badge number is already registered. Please use a different badge number." "message";;
            mret (Render "register.html")
        | None =>
            add_user (new_user salt_password salt_pin form);;
            flash "Registration successful! Please log in to continue." "success";;
            mret (Redirect (UrlFor "blog.login" []))
        end
    end
  else mret (Render "register.html").

Definition login (req : Request) (form : LoginForm.t) : handler Response :=
  if is_submitted req && LoginForm.validate form then
    w ← get_world;
    match find_user_by_email (LoginForm.email form) w with
    | None =>
        flash "That email does not exist, please try again." "message";;
        mret (Redirect (UrlFor "blog.login" []))
    | Some user =>
        if negb (check_password_hash (User.password user) (LoginForm.password form))
        then
          flash "Password incorrect, please try again." "message";;
          mret (Redirect (UrlFor "blog.login" []))
        else
          login_user user;;
          let next_page := args_next req in
          mret (Redirect
                  match next_page with
                  | Some target =>
                      if Validators.truthy target then Raw target
                      else UrlFor "blog.get_all_posts" []
                  | None => UrlFor "blog.get_all_posts" []
                  end)
    end
  else mret (Render "login.html").

Definition logout : handler Response :=
  logout_user;;
  mret (Redirect (UrlFor "blog.get_all_posts" [])).

End Handlers.

Section ApiAndAdmin.
Context `{Hasher}.

(** [not value] for what [data.get(key)] returns: [None], JSON null and
    the empty string are all falsy. *)
Definition dict_get (data : gmap string (option string)) (key : string) : option string :=
  mjoin (data !! key).

Definition falsy (value : option string) : bool :=
  match value with
  | Some s => negb (Validators.truthy s)
  | None => true
  end.

Definition error_body (message : string) : list (string * JsonValue) :=
  [("status", JStr "error"); ("message", JStr message)].

Definition json_of_option (o : option string) : JsonValue :=
  match o with Some s => JStr s | None => JNull end.

(** [not data] holds when [get_json()] gave [None] and also when it gave
    an empty object. *)
Definition authenticate_badge_pin (req : Request) : handler Response :=
  match get_json req with
  | None => mret (Jsonify (error_body "Request must be JSON") 400)
  | Some data =>
      if bool_decide (data = ∅)
      then mret (Jsonify (error_body "Request must be JSON") 400)
      else
        let badge := dict_get data "badge" in
        let pin := dict_get data "pin" in
        if falsy badge || falsy pin
        then mret (Jsonify (error_body "Missing badge or pin") 400)
        else
          w ← get_world;
          match find_user_by_badge (default "" badge) w with
          | None => mret (Jsonify (error_body "Badge not found") 404)
          | Some user =>
              if check_password_hash (User.pin user) (default "" pin)
              then mret (Jsonify
                           [("status", JStr "success");
                            ("message", JStr "Authentication successful");
                            ("user_id", JInt (User.id user));
                            ("name", JStr (User.name user));
                            ("email", JStr (User.email user));
                            ("category", json_of_option (User.category user))]
                           200)
              else mret (Jsonify (error_body "Invalid PIN") 401)
          end
  end.

(** Whether the commit after [db.session.delete(user)] fails.  Under the
    relationships of [models.py], [User.posts] and [User.comments]
    cascade "all, delete-orphan", so the user's posts and comments are
    deleted with the row.  [BlogPost.comments] has no delete cascade: a
    comment of another user on one of the deleted posts would get its
    [post_id] set to NULL, which the column does not allow, and the
    commit raises an integrity error. *)
Definition delete_user_blocked (uid : Z) (w : World) : bool :=
  let deleted_posts :=
    filter (fun p => BlogPost.author_id p = uid) (blog_posts w) in
  bool_decide
    (Exists (fun c => Comment.post_id c ∈ BlogPost.id <$> deleted_posts)
            (filter (fun c => Comment.author_id c ≠ uid) (comments w))).

(** [db.session.delete(user); db.session.commit()]: [false], with
    nothing written, when the commit raises. *)
Definition delete_user_row (user : User.t) : handler bool :=
  fun w =>
    let uid := User.id user in
    if delete_user_blocked uid w then (false, w)
    else
      (true, mkWorld
               (filter (fun u => User.id u ≠ uid) (users w))
               (filter (fun p => BlogPost.author_id p ≠ uid) (blog_posts w))
               (filter (fun c => Comment.author_id c ≠ uid) (comments w))
               (current_user w) (flashes w)).

(** The view under the decorator.  It reads [current_user.id], which
    the anonymous user does not have: without a session identity the
    view fails with a server error (the decorator never lets that
    happen).  The integrity error of a failed commit is not handled
    either: a server error, before the flash. *)
Definition delete_user_view (user_id : Z) : handler Response :=
  w ← get_world;
  match current_user w with
  | None => mret (Abort 500)
  | Some me =>
      if bool_decide (user_id = User.id me)
      then
        flash "You cannot delete your own account from the dashboard." "danger";;
        mret (Redirect (UrlFor "blog.admin_dashboard" []))
      else
        match get_user user_id w with
        | None => mret (Abort 404)
        | Some user_to_delete =>
            committed ← delete_user_row user_to_delete;
            if committed : bool
            then
              flash ("User '" ++ User.name user_to_delete
                       ++ "' has been deleted successfully.") "success";;
              mret (Redirect (UrlFor "blog.admin_dashboard" []))
            else mret (Abort 500)
        end
  end.

(** [@roles_required('executive')] on [delete_user]. *)
Definition delete_user (user_id : Z) (req : Request) : handler Response :=
  roles_required ["executive"] (delete_user_view user_id) req.

End ApiAndAdmin.

(** ** Posts and comments ([main.py], [forms.py]) *)

(** As for the handlers above, each definition is the view function:
    what runs once the route has matched the request, its method
    included.  Unique columns are compared as exact strings, and column
    lengths are not enforced. *)

(** wtforms' [URL()] validator, taken as an interface. *)
Class UrlValidator := { URL : string -> bool }.

(** [CreatePostForm]: the data of its fields once the form is
    processed.  In [add_new_post] a field that was not sent is empty; in
    [edit_post] it keeps the value the form was constructed with (see
    [edit_form]). *)
Module CreatePostForm.
Record t := mk {
  title : string;
  subtitle : string;
  img_url : string;
  body : string
}.

Definition validate `{UrlValidator} (form : t) : bool :=
  Validators.DataRequired (title form)
  && Validators.DataRequired (subtitle form)
  && (Validators.DataRequired (img_url form) && URL (img_url form))
  && Validators.DataRequired (body form).
End CreatePostForm.

(** What a submission of the post form carries: [None] for a field that
    was not sent. *)
Module PostFields.
Record t := mk {
  title : option string;
  subtitle : option string;
  img_url : option string;
  body : option string
}.
End PostFields.

Module CommentForm.
Record t := mk { comment_text : string }.

Definition validate (form : t) : bool :=
  Validators.DataRequired (comment_text form).
End CommentForm.

(** [db.get_or_404(BlogPost, post_id)]. *)
Definition get_post (post_id : Z) (w : World) : option BlogPost.t :=
  head (filter (fun p => BlogPost.id p = post_id) (blog_posts w)).

(** The primary keys the database gives to new rows. *)
Definition next_post_id (w : World) : Z :=
  (1 + foldr Z.max 0 (BlogPost.id <$> blog_posts w))%Z.

Definition next_comment_id (w : World) : Z :=
  (1 + foldr Z.max 0 (Comment.id <$> comments w))%Z.

Definition add_comment (new_comment : Z -> Comment.t) : handler unit :=
  fun w => (tt, mkWorld (users w) (blog_posts w)
                        (comments w ++ [new_comment (next_comment_id w)])
                        (current_user w) (flashes w)).

Definition add_post (new_post : Z -> BlogPost.t) : handler unit :=
  fun w => (tt, mkWorld (users w)
                        (blog_posts w ++ [new_post (next_post_id w)])
                        (comments w) (current_user w) (flashes w)).

(** Whether the commit after [db.session.delete(post)] fails:
    [BlogPost.comments] has no delete cascade, so every comment of the
    post would get its [post_id] set to NULL, which the column does not
    allow. *)
Definition delete_post_blocked (post_id : Z) (w : World) : bool :=
  bool_decide (Exists (fun c => Comment.post_id c = post_id) (comments w)).

(** [db.session.delete(post); db.session.commit()]: [false], with
    nothing written, when the commit raises. *)
Definition delete_post_row (post : BlogPost.t) : handler bool :=
  fun w =>
    if delete_post_blocked (BlogPost.id post) w then (false, w)
    else
      (true, mkWorld
               (users w)
               (filter (fun p => BlogPost.id p <> BlogPost.id post) (blog_posts w))
               (comments w) (current_user w) (flashes w)).

(** The assignments of [edit_post] to the row of [post] followed by the
    commit; the row keeps its primary key and its date. *)
Definition update_post (post : BlogPost.t) (form : CreatePostForm.t)
    (editor : User.t) : handler unit :=
  fun w =>
    (tt, mkWorld
           (users w)
           ((fun p => if bool_decide (BlogPost.id p = BlogPost.id post)
                      then BlogPost.mk (BlogPost.id p) (User.id editor)
                                       (CreatePostForm.title form)
                                       (CreatePostForm.subtitle form)
                                       (BlogPost.date p)
                                       (CreatePostForm.body form)
                                       (CreatePostForm.img_url form)
                      else p) <$> blog_posts w)
           (comments w) (current_user w) (flashes w)).

Section Content.
Context {url_validator : UrlValidator}.

Definition get_all_posts : handler Response :=
  mret (Render "indexb.html").

Definition show_post (post_id : Z) (req : Request)
    (comment_form : CommentForm.t) : handler Response :=
  w ← get_world;
  match get_post post_id w with
  | None => mret (Abort 404)
  | Some requested_post =>
      if is_submitted req && CommentForm.validate comment_form then
        match current_user w with
        | None =>
            flash "You need to login or register to comment." "message";;
            mret (Redirect (UrlFor "blog.login" [("next", url req)]))
        | Some user =>
            add_comment (fun new_id =>
              Comment.mk new_id (CommentForm.comment_text comment_form)
                         (User.id user)
                         (BlogPost.id requested_post));;
            mret (Redirect (UrlFor "blog.show_post" [("post_id", pretty post_id)]))
        end
      else mret (Render "post.html")
  end.

(** The view under the decorator; [today] is the formatted
    [date.today()].  [title] is a unique column: committing a title that
    another row has raises an integrity error, which the view does not
    handle (a server error, nothing written).  Without a session
    identity the [author] assignment fails likewise. *)
Definition add_new_post_view (today : string) (req : Request)
    (form : CreatePostForm.t) : handler Response :=
  if is_submitted req && CreatePostForm.validate form then
    w ← get_world;
    match current_user w with
    | None => mret (Abort 500)
    | Some user =>
        if bool_decide (CreatePostForm.title form ∈ BlogPost.title <$> blog_posts w)
        then mret (Abort 500)
        else
          add_post (fun new_id =>
            BlogPost.mk new_id (User.id user)
                        (CreatePostForm.title form)
                        (CreatePostForm.subtitle form)
                        today
                        (CreatePostForm.body form)
                        (CreatePostForm.img_url form));;
          mret (Redirect (UrlFor "blog.get_all_posts" []))
    end
  else mret (Render "make-post.html").

Definition add_new_post (today : string) (req : Request)
    (form : CreatePostForm.t) : handler Response :=
  roles_required ["executive"; "director"] (add_new_post_view today req form) req.

(** [CreatePostForm(title=post.title, ...)] filled from the post and
    then from the submission. *)
Definition edit_form (post : BlogPost.t) (sent : PostFields.t) : CreatePostForm.t :=
  CreatePostForm.mk
    (default (BlogPost.title post) (PostFields.title sent))
    (default (BlogPost.subtitle post) (PostFields.subtitle sent))
    (default (BlogPost.img_url post) (PostFields.img_url sent))
    (default (BlogPost.body post) (PostFields.body sent)).

Definition edit_post_view (post_id : Z) (req : Request)
    (sent : PostFields.t) : handler Response :=
  w ← get_world;
  match get_post post_id w with
  | None => mret (Abort 404)
  | Some post =>
      let edit_form := edit_form post sent in
      if is_submitted req && CreatePostForm.validate edit_form then
        match current_user w with
        | None => mret (Abort 500)
        | Some user =>
            if bool_decide
                 (CreatePostForm.title edit_form ∈
                    BlogPost.title <$>
                      filter (fun p => BlogPost.id p <> BlogPost.id post)
                             (blog_posts w))
            then mret (Abort 500)
            else
              update_post post edit_form user;;
              mret (Redirect (UrlFor "blog.show_post"
                                     [("post_id", pretty (BlogPost.id post))]))
        end
      else mret (Render "make-post.html")
  end.

Definition edit_post (post_id : Z) (req : Request)
    (sent : PostFields.t) : handler Response :=
  roles_required ["executive"; "director"] (edit_post_view post_id req sent) req.

Definition delete_post_view (post_id : Z) : handler Response :=
  w ← get_world;
  match get_post post_id w with
  | None => mret (Abort 404)
  | Some post_to_delete =>
      committed ← delete_post_row post_to_delete;
      if committed : bool
      then mret (Redirect (UrlFor "blog.get_all_posts" []))
      else mret (Abort 500)
  end.

Definition delete_post (post_id : Z) (req : Request) : handler Response :=
  roles_required ["executive"] (delete_post_view post_id) req.

Definition admin_dashboard (req : Request) : handler Response :=
  roles_required ["executive"] (mret (Render "admin_dashboard.html")) req.

End Content.

(** ** The guard as the specification words it *)

Inductive Decision :=
| Allow
| RedirectToLogin (target : string)
| Forbidden.

(** [authorize(session_identity, required_roles)], with the requested
    target the redirect has to carry. *)
Definition authorize (session_identity : option User.t)
    (required_roles : list string) (target : string) : Decision :=
  match session_identity with
  | None => RedirectToLogin target
  | Some identity =>
      match User.category identity with
      | Some role =>
          if decide (role ∈ required_roles) then Allow else Forbidden
      | None => Forbidden
      end
  end.

(** The world after one more flashed message. *)
Definition flashed (message category : string) (w : World) : World :=
  snd (flash message category w).

(** ** Sample data for the worked examples *)

Module Samples.

(** A transparent stand-in for the hasher, of werkzeug's digest shape
    [method$salt$hash] but with the secret itself in the last place; it
    only serves to run the handlers on concrete data. *)
Fixpoint after_dollar (s : string) : option string :=
  match s with
  | "" => None
  | String c rest =>
      if bool_decide (c = "$"%char) then Some rest else after_dollar rest
  end.

Definition transparent_hasher : Hasher := {|
  generate_password_hash password salt :=
    "pbkdf2:sha256$" ++ salt ++ "$" ++ password;
  check_password_hash pwhash password :=
    match after_dollar pwhash ≫= after_dollar with
    | Some hashval => bool_decide (hashval = password)
    | None => false
    end
|}.

Definition ada : User.t :=
  User.mk 1 "ada@example.org" "pbkdf2:sha256$saltsalt$analytical"
          "Ada" "1001" "pbkdf2:sha256$pinsalt1$4321"
          (Some "executive") None.

Definition dora : User.t :=
  User.mk 2 "dora@example.org" "pbkdf2:sha256$tlastlas$difference"
          "Dora" "3999" "pbkdf2:sha256$pinsalt2$4321"
          (Some "director") (Some "Engines Ltd").

Definition post_by_dora : BlogPost.t :=
  BlogPost.mk 10 2 "Gears" "On gears" "May 01, 2024" "..." "http://img/1".

Definition post_by_ada : BlogPost.t :=
  BlogPost.mk 11 1 "Notes" "On notes" "May 02, 2024" "..." "http://img/2".

Definition comment_by_dora : Comment.t :=
  Comment.mk 20 "first" 2 11.

Definition comment_by_ada : Comment.t :=
  Comment.mk 21 "second" 1 10.

Definition empty_world : World := mkWorld [] [] [] None [].

(** Two users with content, nobody logged in. *)
Definition office : World :=
  mkWorld [ada; dora] [post_by_dora; post_by_ada]
          [comment_by_dora; comment_by_ada] None [].

(** The same, with the executive logged in. *)
Definition office_ada : World :=
  mkWorld [ada; dora] [post_by_dora; post_by_ada]
          [comment_by_dora; comment_by_ada] (Some ada) [].

Definition get_page (u : string) : Request := mkRequest GET u None None.

Definition post_form (u : string) (next : option string) : Request :=
  mkRequest POST u next None.

Definition post_json (body : gmap string (option string)) : Request :=
  mkRequest POST "/api/authenticate_badge_pin" None (Some body).

Definition pin_with_newline : string := "1234" ++ String Validators.newline "".

Definition form_eve (pin : string) : RegisterForm.t :=
  RegisterForm.mk "eve@example.org" "s3cret" "Eve" "7007" "" pin.

(** A registration that reuses Ada's email, and one that reuses Dora's
    badge. *)
Definition form_same_email : RegisterForm.t :=
  RegisterForm.mk "ada@example.org" "hunter22" "Ada B." "2002" "" "1234".

Definition form_same_badge : RegisterForm.t :=
  RegisterForm.mk "bea@example.org" "hunter22" "Bea" "3999" "Looms" "123456".

(** Registration and login run against [office] with the stand-in
    hasher. *)
Definition register_at_office (form : RegisterForm.t) : Response * World :=
  @register transparent_hasher "salt0001" "salt0002"
            (post_form "/register" None) form office.

Definition login_at_office (next : option string) (form : LoginForm.t)
    : Response * World :=
  @login transparent_hasher (post_form "/login" next) form office.

Definition form_ada : LoginForm.t :=
  LoginForm.mk "ada@example.org" "analytical".

(** The same office with the director logged in. *)
Definition office_dora : World :=
  mkWorld [ada; dora] [post_by_dora; post_by_ada]
          [comment_by_dora; comment_by_ada] (Some dora) [].

(** A stand-in for the URL validator that only looks at the scheme. *)
Definition http_only : UrlValidator := {|
  URL s := match s with
           | String "h" (String "t" (String "t" (String "p" _))) => true
           | _ => false
           end
|}.

Definition form_levers : CreatePostForm.t :=
  CreatePostForm.mk "Levers" "On levers" "http://img/3" "Give me a place to stand.".

Definition form_comment : CommentForm.t := CommentForm.mk "Well said.".

(** An edit that sends a new body only. *)
Definition sent_body : PostFields.t :=
  PostFields.mk None None None (Some "Revised.").

(** The office with a third, regular user who is logged in. *)
Definition eve : User.t :=
  User.mk 3 "eve@example.org" "pbkdf2:sha256$saltsalt$s3cret"
          "Eve" "7007" "pbkdf2:sha256$pinsalt3$1234"
          (Some "regular") None.

Definition office_eve : World :=
  mkWorld [ada; dora; eve] [post_by_dora; post_by_ada]
          [comment_by_dora; comment_by_ada] (Some eve) [].

(** An office in which nobody has commented on a post of Dora's: Dora
    commented on Ada's post, and Ada on her own. *)
Definition comment_on_own : Comment.t :=
  Comment.mk 22 "third" 1 11.

Definition calm_ada : World :=
  mkWorld [ada; dora] [post_by_dora; post_by_ada]
          [comment_by_dora; comment_on_own] (Some ada) [].

(** An office whose only comment is Dora's, with Dora logged in. *)
Definition calm_dora : World :=
  mkWorld [ada; dora] [post_by_dora; post_by_ada]
          [comment_by_dora] (Some dora) [].

End Samples.

(** ** Predicates used in the statements *)

(** Every character is whitespace (the empty string included). *)
Fixpoint blank (s : string) : bool :=
  match s with
  | "" => true
  | String c rest => Validators.py_isspace c && blank rest
  end.

(** Four or five digits followed by one line feed. *)
Definition digits_then_newline (data : string) : Prop :=
  exists d, data = d ++ String Validators.newline ""
            /\ all_digits d = true
            /\ (4 <= String.length d <= 5)%nat.

(** The unique columns of [users]: primary key, email and badge. *)
Definition unique_users (w : World) : Prop :=
  NoDup (User.id <$> users w)
  /\ NoDup (User.email <$> users w)
  /\ NoDup (User.badge <$> users w).

(** The unique columns of [blog_posts]: primary key and title. *)
Definition unique_posts (w : World) : Prop :=
  NoDup (BlogPost.id <$> blog_posts w)
  /\ NoDup (BlogPost.title <$> blog_posts w).

(** The three foreign keys of [models.py] all point at existing rows. *)
Definition foreign_keys_hold (w : World) : Prop :=
  Forall (fun p => BlogPost.author_id p ∈ User.id <$> users w) (blog_posts w)
  /\ Forall (fun c => Comment.author_id c ∈ User.id <$> users w) (comments w)
  /\ Forall (fun c => Comment.post_id c ∈ BlogPost.id <$> blog_posts w)
            (comments w).

(** What the guard answers when it does not let the caller through. *)
Definition denied (req : Request) (w : World) : Response * World :=
  match current_user w with
  | None =>
      (Redirect (UrlFor "blog.login" [("next", url req)]),
       flashed "You must be logged in to view this page." "warning" w)
  | Some _ => (Abort 403, w)
  end.


(** ** Statements the code does not satisfy as worded *)

(** "The guard performs no state mutation on a non-Allow decision." *)
Definition guard_leaves_world_untouched : Prop :=
  forall (required_roles : list string) (f : handler Response)
         (req : Request) (w : World),
    authorize (current_user w) required_roles (url req) <> Allow ->
    snd (roles_required required_roles f req w) = w.

(** "After a successful login the caller is redirected to exactly the
    captured target, for every target value that was supplied." *)
Definition login_lands_on_every_supplied_target : Prop :=
  forall (H : Hasher) (req : Request) (form : LoginForm.t) (w : World)
         (user : User.t) (target : string),
    is_submitted req = true ->
    LoginForm.validate form = true ->
    find_user_by_email (LoginForm.email form) w = Some user ->
    check_password_hash (User.password user) (LoginForm.password form) = true ->
    args_next req = Some target ->
    fst (login req form w) = Redirect (Raw target).

(** * Properties *)

(** ** Role classifier *)

Section ClassifierFacts.
Import Classifier.

Lemma categories_lookup (c : ascii) :
  default "unknown" (categories !! String c "") = role_of_first_char c.
Proof.
  destruct c as [b0 b1 b2 b3 b4 b5 b6 b7].
  destruct b0, b1, b2, b3, b4, b5, b6, b7; vm_compute; reflexivity.
Qed.

(** C1: the classifier returns unknown on an absent or empty badge and
    otherwise the role fixed by the first character alone (the table of
    [role_of_first_char]); two badges that agree on their first
    character get the same role, whatever follows it. *)
Theorem determine_user_category_first_char :
  (forall b : option string, determine_user_category b = classify_spec b)
  /\ determine_user_category None = "unknown"
  /\ determine_user_category (Some "") = "unknown"
  /\ (forall (c : ascii) (rest rest' : string),
        determine_user_category (Some (String c rest)) =
        determine_user_category (Some (String c rest'))).
Proof.
  split; [|split; [reflexivity|split; [reflexivity|]]].
  - intros [[|c rest]|]; simpl; try reflexivity.
    apply categories_lookup.
  - intros c rest rest'. reflexivity.
Qed.

Example classify_1 : determine_user_category (Some "1") = "executive".
Proof. vm_compute. reflexivity. Qed.

Example classify_3999 : determine_user_category (Some "3999") = "director".
Proof. vm_compute. reflexivity. Qed.

Example classify_9xx : determine_user_category (Some "9xx") = "unknown".
Proof. vm_compute. reflexivity. Qed.

End ClassifierFacts.

(** ** Authorization guard *)

Ltac run_handler :=
  unfold mbind, handler_bind, mret, handler_ret, get_world, flashed, flash;
  cbn [fst snd].

(** Case analyses on lookups leave goals that are conjunctions of
    implications, most of them with a contradictory premise. *)
Ltac settle_cases :=
  repeat split; try reflexivity; intros;
  repeat match goal with
         | Hx : is_Some None |- _ => destruct Hx as [? Hx]; discriminate Hx
         | Hx : _ \/ _ |- _ => destruct Hx
         | Hx : ~ is_Some (Some _) |- _ =>
             exfalso; apply Hx; eexists; reflexivity
         | Hx : false = true |- _ => discriminate Hx
         | Hx : None = Some _ |- _ => discriminate Hx
         | Hx : Some _ = None |- _ => discriminate Hx
         end;
  try reflexivity; try congruence.

Section GuardFacts.
Import Samples.

Lemma in_roles_authorize (u : User.t) (required_roles : list string) (target : string) :
  authorize (Some u) required_roles target =
  if in_roles (User.category u) required_roles then Allow else Forbidden.
Proof.
  unfold authorize, in_roles. destruct (User.category u) as [role|]; [|reflexivity].
  destruct (decide (role ∈ required_roles)) as [Hin|Hout].
  - rewrite bool_decide_eq_true_2; auto.
  - rewrite bool_decide_eq_false_2; auto.
Qed.

(** C2 (amended): the decorated view answers by the decision of
    [authorize]: without a session identity it redirects to the login
    page carrying the requested URL and queues one warning flash, leaving
    the tables and the session identity as they were; with an identity
    whose role is not among the required ones it aborts with 403 and
    changes nothing; otherwise it is the wrapped view, which therefore
    runs exactly on Allow. *)
Theorem roles_required_decision
    (required_roles : list string) (f : handler Response)
    (req : Request) (w : World) :
  let r := roles_required required_roles f req w in
  match authorize (current_user w) required_roles (url req) with
  | RedirectToLogin target =>
      fst r = Redirect (UrlFor "blog.login" [("next", target)])
      /\ target = url req
      /\ snd r = flashed "You must be logged in to view this page." "warning" w
      /\ users (snd r) = users w
      /\ blog_posts (snd r) = blog_posts w
      /\ comments (snd r) = comments w
      /\ current_user (snd r) = current_user w
      /\ (forall g : handler Response, roles_required required_roles g req w = r)
  | Forbidden =>
      r = (Abort 403, w)
      /\ (forall g : handler Response, roles_required required_roles g req w = r)
  | Allow => r = f w
  end.
Proof.
  unfold roles_required. run_handler.
  destruct (current_user w) as [u|] eqn:Hu.
  - rewrite in_roles_authorize.
    destruct (in_roles (User.category u) required_roles); cbn; auto.
  - cbn. rewrite Hu. repeat split; reflexivity.
Qed.

(** C2 (as worded): on the redirect branch the guard does change the
    world, it queues a flash message. *)
Lemma guard_flashes_on_redirect : ~ guard_leaves_world_untouched.
Proof.
  intros Hclaim.
  specialize (Hclaim ["executive"; "director"] (mret (Render "make-post.html"))
                     (get_page "/new-post") empty_world).
  assert (Hneq : authorize (current_user empty_world) ["executive"; "director"]
                   (url (get_page "/new-post")) <> Allow) by (cbn; discriminate).
  apply Hclaim in Hneq. vm_compute in Hneq. discriminate Hneq.
Qed.

Example regular_is_forbidden (u : User.t) (f : handler Response) (req : Request) :
  User.category u = Some "regular" ->
  forall w, current_user w = Some u ->
  roles_required ["executive"; "director"] f req w = (Abort 403, w).
Proof.
  intros Hcat w Hu. unfold roles_required. run_handler.
  rewrite Hu, Hcat. reflexivity.
Qed.

End GuardFacts.

(** ** Badge/PIN API *)

Section ApiFacts.
Import Samples.
Context {hasher : Hasher}.

(** X6: the endpoint never changes the world. *)
Lemma authenticate_badge_pin_stateless (req : Request) (w : World) :
  snd (authenticate_badge_pin req w) = w.
Proof.
  unfold authenticate_badge_pin. run_handler.
  destruct (get_json req) as [data|]; [|reflexivity].
  destruct (bool_decide (data = ∅)); [reflexivity|].
  destruct (falsy (dict_get data "badge") || falsy (dict_get data "pin"));
    [reflexivity|].
  destruct (find_user_by_badge _ w) as [user|]; [|reflexivity].
  destruct (check_password_hash _ _); reflexivity.
Qed.

(** X7: a missing or empty field in a non-empty object is answered before
    any lookup, whatever the tables hold. *)
Lemma authenticate_missing_field (req : Request)
    (data : gmap string (option string)) (w : World) :
  get_json req = Some data -> data <> ∅ ->
  falsy (dict_get data "badge") || falsy (dict_get data "pin") = true ->
  authenticate_badge_pin req w =
  (Jsonify (error_body "Missing badge or pin") 400, w).
Proof.
  intros Hjson Hne Hfalsy. unfold authenticate_badge_pin. run_handler.
  rewrite Hjson, bool_decide_eq_false_2 by assumption.
  rewrite Hfalsy. reflexivity.
Qed.

(** With both fields present and non-empty the answer follows the
    lookup by badge and the PIN check. *)
Lemma authenticate_lookup (req : Request)
    (data : gmap string (option string)) (badge pin : string) (w : World) :
  get_json req = Some data ->
  dict_get data "badge" = Some badge -> badge <> "" ->
  dict_get data "pin" = Some pin -> pin <> "" ->
  authenticate_badge_pin req w =
  (match find_user_by_badge badge w with
   | None => Jsonify (error_body "Badge not found") 404
   | Some user =>
       if check_password_hash (User.pin user) pin
       then Jsonify [("status", JStr "success");
                     ("message", JStr "Authentication successful");
                     ("user_id", JInt (User.id user));
                     ("name", JStr (User.name user));
                     ("email", JStr (User.email user));
                     ("category", json_of_option (User.category user))] 200
       else Jsonify (error_body "Invalid PIN") 401
   end, w).
Proof.
  intros Hjson Hb Hbne Hp Hpne. unfold authenticate_badge_pin. run_handler.
  rewrite Hjson.
  assert (Hne : data <> ∅).
  { intros ->. unfold dict_get in Hb. rewrite lookup_empty in Hb. discriminate. }
  rewrite bool_decide_eq_false_2 by assumption.
  rewrite Hb, Hp. cbn.
  destruct badge; [congruence|]. destruct pin; [congruence|]. cbn.
  destruct (find_user_by_badge _ w) as [user|]; [|reflexivity].
  destruct (check_password_hash _ _); reflexivity.
Qed.

(** C3: on the body [{}] the endpoint answers 400 with the message
    "Request must be JSON", although the body is a JSON object whose
    badge and pin are missing, the case for which the table prescribes
    "Missing badge or pin". *)
Theorem authenticate_empty_object (w : World) :
  dict_get ∅ "badge" = None
  /\ dict_get ∅ "pin" = None
  /\ authenticate_badge_pin (post_json ∅) w =
     (Jsonify (error_body "Request must be JSON") 400, w)
  /\ fst (authenticate_badge_pin (post_json ∅) w) <>
     Jsonify (error_body "Missing badge or pin") 400.
Proof.
  repeat split; try reflexivity. cbn. discriminate.
Qed.

End ApiFacts.

Example api_3999_4321 :
  fst (@authenticate_badge_pin Samples.transparent_hasher
         (Samples.post_json (<["badge" := Some "3999"]> (<["pin" := Some "4321"]> ∅)))
         Samples.office) =
  Jsonify [("status", JStr "success");
           ("message", JStr "Authentication successful");
           ("user_id", JInt 2); ("name", JStr "Dora");
           ("email", JStr "dora@example.org");
           ("category", JStr "director")] 200.
Proof. vm_compute. reflexivity. Qed.

Example api_3999_0000 :
  fst (@authenticate_badge_pin Samples.transparent_hasher
         (Samples.post_json (<["badge" := Some "3999"]> (<["pin" := Some "0000"]> ∅)))
         Samples.office) =
  Jsonify (error_body "Invalid PIN") 401.
Proof. vm_compute. reflexivity. Qed.

Example api_unknown_badge :
  fst (@authenticate_badge_pin Samples.transparent_hasher
         (Samples.post_json (<["badge" := Some "does-not-exist"]> (<["pin" := Some "0000"]> ∅)))
         Samples.office) =
  Jsonify (error_body "Badge not found") 404.
Proof. vm_compute. reflexivity. Qed.

(** ** Registration *)

Section RegisterFacts.
Context {hasher : Hasher}.

Lemma register_frame (salt_password salt_pin : string)
    (req : Request) (form : RegisterForm.t) (w : World) :
  let w' := snd (register salt_password salt_pin req form w) in
  blog_posts w' = blog_posts w /\ comments w' = comments w
  /\ current_user w' = current_user w.
Proof.
  unfold register. run_handler.
  destruct (is_submitted req && RegisterForm.validate form); [|cbn; auto].
  destruct (find_user_by_email _ w); [cbn; auto|].
  destruct (find_user_by_badge _ w); cbn; auto.
Qed.

(** C4: a registration whose email or badge is already in the store
    writes no row, whatever else the request holds; for a validated
    submission the duplicate email is answered by a flashed message and
    a redirect to the login page, the duplicate badge by a flashed
    message and the form again; and when neither is taken exactly one
    row is appended, with every field set: the new id, the email, the
    password digest, the name, the badge, the PIN digest, the category
    of the badge and the company (NULL when the field is empty). *)
Theorem register_uniqueness (salt_password salt_pin : string)
    (req : Request) (form : RegisterForm.t) (w : World) :
  let r := register salt_password salt_pin req form w in
  let email_taken := is_Some (find_user_by_email (RegisterForm.email form) w) in
  let badge_taken := is_Some (find_user_by_badge (RegisterForm.badge form) w) in
  let valid := is_submitted req && RegisterForm.validate form = true in
  (email_taken \/ badge_taken ->
     users (snd r) = users w /\ blog_posts (snd r) = blog_posts w
     /\ comments (snd r) = comments w)
  /\ (valid -> email_taken ->
      r = (Redirect (UrlFor "blog.login" []),
           flashed "You've already signed up with that email, log in instead!"
                   "message" w))
  /\ (valid -> ~ email_taken -> badge_taken ->
      r = (Render "register.html",
           flashed "This badge number is already registered. Please use a different badge number."
                   "message" w))
  /\ (valid -> ~ email_taken -> ~ badge_taken ->
      fst r = Redirect (UrlFor "blog.login" [])
      /\ users (snd r) =
         (users w ++ [new_user salt_password salt_pin form (next_user_id w)])%list
      /\ User.email (new_user salt_password salt_pin form (next_user_id w)) =
         RegisterForm.email form
      /\ User.badge (new_user salt_password salt_pin form (next_user_id w)) =
         RegisterForm.badge form
      /\ User.password (new_user salt_password salt_pin form (next_user_id w)) =
         generate_password_hash (RegisterForm.password form) salt_password
      /\ User.pin (new_user salt_password salt_pin form (next_user_id w)) =
         generate_password_hash (RegisterForm.pin form) salt_pin
      /\ User.category (new_user salt_password salt_pin form (next_user_id w)) =
         Some (Classifier.determine_user_category (Some (RegisterForm.badge form)))
      /\ flashes (snd r) =
         (flashes w ++ [("Registration successful! Please log in to continue.",
                         "success")])%list
      /\ users (snd r) =
         (users w ++
            [User.mk (next_user_id w)
                     (RegisterForm.email form)
                     (generate_password_hash (RegisterForm.password form)
                                             salt_password)
                     (RegisterForm.name form)
                     (RegisterForm.badge form)
                     (generate_password_hash (RegisterForm.pin form) salt_pin)
                     (Some (Classifier.determine_user_category
                              (Some (RegisterForm.badge form))))
                     match RegisterForm.company form with
                     | "" => None
                     | company => Some company
                     end])%list).
Proof.
  cbn zeta. unfold register. run_handler.
  destruct (is_submitted req && RegisterForm.validate form) eqn:Hvalid;
    [|cbn; settle_cases].
  destruct (find_user_by_email _ w) as [u|] eqn:He; [cbn; settle_cases|].
  destruct (find_user_by_badge _ w) as [u|] eqn:Hb; cbn; settle_cases.
  unfold new_user. destruct (RegisterForm.company form); reflexivity.
Qed.

(** C8: registration leaves the session identity as it was: whoever was
    (or was not) logged in before the request is (or is not) after it,
    so the new identity still has to log in. *)
Theorem register_keeps_session (salt_password salt_pin : string)
    (req : Request) (form : RegisterForm.t) (w : World) :
  current_user (snd (register salt_password salt_pin req form w)) =
  current_user w.
Proof. apply register_frame. Qed.

End RegisterFacts.

Lemma register_uniqueness_witness :
  users (snd (Samples.register_at_office Samples.form_same_email)) =
    users Samples.office
  /\ users (snd (Samples.register_at_office Samples.form_same_badge)) =
    users Samples.office
  /\ fst (Samples.register_at_office Samples.form_same_email) =
    Redirect (UrlFor "blog.login" [])
  /\ fst (Samples.register_at_office Samples.form_same_badge) =
    Render "register.html"
  /\ length (users (snd (Samples.register_at_office (Samples.form_eve "1234")))) =
    3%nat
  /\ User.name <$>
       users (snd (Samples.register_at_office (Samples.form_eve "1234"))) =
     ["Ada"; "Dora"; "Eve"].
Proof.
  unfold Samples.register_at_office.
  destruct (@register_uniqueness Samples.transparent_hasher "salt0001" "salt0002"
              (Samples.post_form "/register" None) Samples.form_same_email
              Samples.office) as (Hsame & Hemail & _ & _).
  destruct (@register_uniqueness Samples.transparent_hasher "salt0001" "salt0002"
              (Samples.post_form "/register" None) Samples.form_same_badge
              Samples.office) as (Hsame' & _ & Hbadge & _).
  destruct (@register_uniqueness Samples.transparent_hasher "salt0001" "salt0002"
              (Samples.post_form "/register" None) (Samples.form_eve "1234")
              Samples.office) as (_ & _ & _ & Hnew).
  split; [apply Hsame; left; eexists; vm_compute; reflexivity|].
  split; [apply Hsame'; right; eexists; vm_compute; reflexivity|].
  split.
  { rewrite Hemail; [reflexivity|vm_compute; reflexivity|].
    eexists; vm_compute; reflexivity. }
  split.
  { rewrite Hbadge; [reflexivity|vm_compute; reflexivity| |].
    - intros [u Hu]. vm_compute in Hu. discriminate Hu.
    - eexists; vm_compute; reflexivity. }
  destruct Hnew as (_ & Hrows & _ & _ & _ & _ & _ & _ & Hrow).
  - vm_compute; reflexivity.
  - intros [u Hu]. vm_compute in Hu. discriminate Hu.
  - intros [u Hu]. vm_compute in Hu. discriminate Hu.
  - split; [rewrite Hrows; reflexivity|rewrite Hrow; reflexivity].
Defined.

(** ** PIN validation *)

Section PinFacts.
Import Samples Validators.
Context {hasher : Hasher}.

Lemma digit_not_space (c : ascii) :
  is_digit_0_9 c = true -> py_isspace c = false.
Proof.
  destruct c as [b0 b1 b2 b3 b4 b5 b6 b7].
  destruct b0, b1, b2, b3, b4, b5, b6, b7; vm_compute; congruence.
Qed.

Ltac split_digits Hall :=
  repeat match type of Hall with
         | _ && _ = true =>
             let Hd := fresh "Hd" in
             apply andb_true_iff in Hall as [Hd Hall];
             try (pose proof (digit_not_space _ Hd))
         end.

Ltac use_digits :=
  repeat match goal with
         | Hs : py_isspace ?c = false |- context [py_isspace ?c] =>
             rewrite Hs; cbn -[is_digit_0_9 py_isspace]
         | Hs : is_digit_0_9 ?c = true |- context [is_digit_0_9 ?c] =>
             rewrite Hs; cbn -[is_digit_0_9 py_isspace]
         end.

(** Every string of four to six digits passes the three validators. *)
Lemma validate_pin_of_digits (p : string) :
  pin_4_to_6_digits p = true -> validate_pin p = true.
Proof.
  unfold pin_4_to_6_digits. intros Hall.
  destruct p as [|c1 [|c2 [|c3 [|c4 [|c5 [|c6 [|c7 p]]]]]]];
    cbn -[is_digit_0_9] in Hall; try discriminate Hall;
    split_digits Hall;
    unfold validate_pin, DataRequired, strip, Regexp_pin, Length;
    cbn -[is_digit_0_9 py_isspace]; use_digits; reflexivity.
Qed.

(** What passes them is such a string, or four or five digits followed
    by one line feed. *)
Lemma validate_pin_shape (p : string) :
  validate_pin p = true ->
  pin_4_to_6_digits p = true
  \/ exists d, p = d ++ String newline "" /\ all_digits d = true
               /\ (4 <= String.length d <= 5)%nat.
Proof.
  unfold validate_pin. intros Hall.
  apply andb_true_iff in Hall as [Hall Hre].
  apply andb_true_iff in Hall as [_ Hlen].
  destruct p as [|c1 [|c2 [|c3 [|c4 [|c5 [|c6 [|c7 p]]]]]]];
    cbn in Hlen; try discriminate Hlen; clear Hlen;
    unfold Regexp_pin in Hre; cbn -[is_digit_0_9] in Hre;
    repeat match type of Hre with
           | context [is_digit_0_9 ?c] =>
               destruct (is_digit_0_9 c) eqn:?; cbn -[is_digit_0_9] in Hre
           end;
    try discriminate Hre;
    try (left; unfold pin_4_to_6_digits; cbn -[is_digit_0_9];
         use_digits; reflexivity);
    rewrite ?orb_false_r in Hre;
    repeat match type of Hre with
           | context [bool_decide ?P] =>
               destruct (bool_decide_reflect P); cbn in Hre
           end;
    try discriminate Hre; subst; right.
  - exists (String c1 (String c2 (String c3 (String c4 "")))).
    split; [reflexivity|]. split; [cbn -[is_digit_0_9]; use_digits; reflexivity|].
    cbn. lia.
  - exists (String c1 (String c2 (String c3 (String c4 (String c5 ""))))).
    split; [reflexivity|]. split; [cbn -[is_digit_0_9]; use_digits; reflexivity|].
    cbn. lia.
Qed.

Example pin_1234 : validate_pin "1234" = true.
Proof. vm_compute. reflexivity. Qed.

Example pin_123456 : validate_pin "123456" = true.
Proof. vm_compute. reflexivity. Qed.

Example pin_123 : validate_pin "123" = false.
Proof. vm_compute. reflexivity. Qed.

Example pin_1234567 : validate_pin "1234567" = false.
Proof. vm_compute. reflexivity. Qed.

Example pin_12a4 : validate_pin "12a4" = false.
Proof. vm_compute. reflexivity. Qed.

(** C6: the PIN made of "1234" and a line feed is not a string of four to
    six digits, yet the three validators of the field accept it (it is
    not blank, has five characters, and [$] matches before the final
    line feed), so a registration carrying it goes through and the
    digest of the five characters is what gets stored. *)
Theorem pin_with_newline_is_registered (salt_password salt_pin : string) :
  pin_4_to_6_digits pin_with_newline = false
  /\ Validators.DataRequired pin_with_newline = true
  /\ Validators.Length (Some 4%nat) (Some 6%nat) pin_with_newline = true
  /\ Validators.Regexp_pin pin_with_newline = true
  /\ RegisterForm.validate (form_eve pin_with_newline) = true
  /\ User.pin <$> users (snd (register salt_password salt_pin
                                (post_form "/register" None)
                                (form_eve pin_with_newline) empty_world)) =
     [generate_password_hash pin_with_newline salt_pin].
Proof.
  repeat split; vm_compute; reflexivity.
Qed.

End PinFacts.

(** ** Login *)

Section LoginFacts.
Context {hasher : Hasher}.

(** C7 (amended): for a validated login submission, an unknown email is
    answered by the "does not exist" message, a failed password check by
    the different "incorrect" message, both with a redirect to the login
    page and no session; on a match the user becomes the session
    identity and the redirect goes to the [next] target when one was
    supplied and is not empty, and to the post list when it is absent
    or empty. *)
Theorem login_outcomes (req : Request) (form : LoginForm.t) (w : World) :
  is_submitted req = true ->
  LoginForm.validate form = true ->
  let r := login req form w in
  "That email does not exist, please try again." <>
    "Password incorrect, please try again."
  /\ match find_user_by_email (LoginForm.email form) w with
     | None =>
         r = (Redirect (UrlFor "blog.login" []),
              flashed "That email does not exist, please try again." "message" w)
     | Some user =>
         if check_password_hash (User.password user) (LoginForm.password form)
         then
           snd r = snd (login_user user w)
           /\ current_user (snd r) = Some user
           /\ (forall target, args_next req = Some target -> target <> "" ->
                 fst r = Redirect (Raw target))
           /\ (args_next req = None \/ args_next req = Some "" ->
                 fst r = Redirect (UrlFor "blog.get_all_posts" []))
         else
           r = (Redirect (UrlFor "blog.login" []),
                flashed "Password incorrect, please try again." "message" w)
     end.
Proof.
  intros Hsub Hval. cbn zeta. split; [discriminate|].
  unfold login. rewrite Hsub, Hval. run_handler. cbn.
  destruct (find_user_by_email _ w) as [user|]; [|reflexivity].
  destruct (check_password_hash _ _); cbn; [|reflexivity].
  repeat split.
  - intros target -> Hne. destruct target; [congruence|reflexivity].
  - intros [->| ->]; reflexivity.
Qed.

End LoginFacts.

Lemma login_outcomes_witness :
  fst (Samples.login_at_office (Some "/new-post?draft=1") Samples.form_ada) =
    Redirect (Raw "/new-post?draft=1")
  /\ current_user (snd (Samples.login_at_office (Some "/new-post?draft=1")
                          Samples.form_ada)) = Some Samples.ada.
Proof.
  unfold Samples.login_at_office.
  destruct (@login_outcomes Samples.transparent_hasher
              (Samples.post_form "/login" (Some "/new-post?draft=1"))
              Samples.form_ada Samples.office) as (_ & Hcase).
  - vm_compute; reflexivity.
  - vm_compute; reflexivity.
  - change (find_user_by_email (LoginForm.email Samples.form_ada) Samples.office)
      with (Some Samples.ada) in Hcase.
    change (@check_password_hash Samples.transparent_hasher
              (User.password Samples.ada) (LoginForm.password Samples.form_ada))
      with true in Hcase.
    destruct Hcase as (_ & Hsession & Htarget & _).
    split; [apply Htarget; [reflexivity|discriminate]|exact Hsession].
Defined.

(** C7 (as worded): a [next] target that was supplied but is empty is not
    where the caller lands; the redirect goes to the post list. *)
Lemma login_empty_target_goes_home : ~ login_lands_on_every_supplied_target.
Proof.
  intros Hclaim.
  specialize (Hclaim Samples.transparent_hasher
                     (Samples.post_form "/login" (Some ""))
                     Samples.form_ada Samples.office Samples.ada "").
  assert (Habs : fst (@login Samples.transparent_hasher
                        (Samples.post_form "/login" (Some ""))
                        Samples.form_ada Samples.office) = Redirect (Raw ""))
    by (apply Hclaim; vm_compute; reflexivity).
  vm_compute in Habs. discriminate Habs.
Qed.

(** ** Administrative delete *)

Section AdminFacts.

Lemma get_user_id (user_id : Z) (w : World) (u : User.t) :
  get_user user_id w = Some u -> User.id u = user_id /\ u ∈ users w.
Proof.
  unfold get_user. intros Hhead.
  apply head_Some_elem_of, list_elem_of_filter in Hhead. exact Hhead.
Qed.

Lemma executive_in_roles (me : User.t) :
  User.category me = Some "executive" ->
  in_roles (User.category me) ["executive"] = true.
Proof. intros ->. reflexivity. Qed.

(** C9: an executive asking to delete their own account is refused:
    the answer is a redirect to the dashboard, the only change to the
    world is the flashed refusal, and the three tables are as before. *)
Theorem delete_user_refuses_self (req : Request) (w : World) (me : User.t) :
  current_user w = Some me ->
  User.category me = Some "executive" ->
  let r := delete_user (User.id me) req w in
  r = (Redirect (UrlFor "blog.admin_dashboard" []),
       flashed "You cannot delete your own account from the dashboard." "danger" w)
  /\ users (snd r) = users w
  /\ blog_posts (snd r) = blog_posts w
  /\ comments (snd r) = comments w
  /\ current_user (snd r) = current_user w.
Proof.
  intros Hme Hcat. cbn zeta.
  destruct w as [us ps cs cu fl]. cbn in Hme. subst cu.
  unfold delete_user, roles_required, delete_user_view. run_handler. cbn.
  rewrite (executive_in_roles me Hcat). cbn.
  rewrite bool_decide_eq_true_2 by reflexivity. cbn. auto.
Qed.

(** The commit of a user delete fails exactly when a comment of another
    user sits on one of the user's posts. *)
Lemma delete_user_blocked_true (uid : Z) (w : World) :
  delete_user_blocked uid w = true <->
  exists c p, c ∈ comments w /\ Comment.author_id c <> uid
              /\ p ∈ blog_posts w /\ BlogPost.author_id p = uid
              /\ Comment.post_id c = BlogPost.id p.
Proof.
  unfold delete_user_blocked. rewrite bool_decide_eq_true, Exists_exists.
  split.
  - intros (c & Hc & Hon). apply list_elem_of_filter in Hc as [Hauthor Hc].
    apply list_elem_of_fmap in Hon as (p & Hid & Hp).
    apply list_elem_of_filter in Hp as [Hmine Hp]. eauto 10.
  - intros (c & p & Hc & Hauthor & Hp & Hmine & Hid). exists c. split.
    + apply list_elem_of_filter. auto.
    + rewrite Hid. apply list_elem_of_fmap_2, list_elem_of_filter. auto.
Qed.

Lemma delete_user_blocked_false (uid : Z) (w : World) :
  delete_user_blocked uid w = false <->
  forall c p, c ∈ comments w -> Comment.author_id c <> uid ->
              p ∈ blog_posts w -> BlogPost.author_id p = uid ->
              Comment.post_id c <> BlogPost.id p.
Proof.
  rewrite <- not_true_iff_false, delete_user_blocked_true. split.
  - intros Hnone c p Hc Hauthor Hp Hmine Hid. apply Hnone. eauto 10.
  - intros Hall (c & p & Hc & Hauthor & Hp & Hmine & Hid).
    apply (Hall c p); assumption.
Qed.

(** What [delete_user] answers and leaves when it deletes [target]. *)
Lemma delete_user_runs (req : Request) (w : World) (me target : User.t) (user_id : Z) :
  current_user w = Some me ->
  User.category me = Some "executive" ->
  user_id <> User.id me ->
  get_user user_id w = Some target ->
  delete_user_blocked user_id w = false ->
  delete_user user_id req w =
  (Redirect (UrlFor "blog.admin_dashboard" []),
   flashed ("User '" ++ User.name target ++ "' has been deleted successfully.")
           "success"
           (mkWorld (filter (fun u => User.id u <> user_id) (users w))
                    (filter (fun p => BlogPost.author_id p <> user_id) (blog_posts w))
                    (filter (fun c => Comment.author_id c <> user_id) (comments w))
                    (current_user w) (flashes w))).
Proof.
  intros Hme Hcat Hother Hget Hfree.
  destruct (get_user_id _ _ _ Hget) as [Hid _].
  destruct w as [us ps cs cu fl]. cbn in Hme. subst cu.
  unfold delete_user, roles_required, delete_user_view. run_handler. cbn.
  rewrite (executive_in_roles me Hcat). cbn.
  rewrite bool_decide_eq_false_2 by assumption.
  rewrite Hget. unfold delete_user_row. rewrite Hid, Hfree. reflexivity.
Qed.

(** What it answers when the commit fails. *)
Lemma delete_user_fails (req : Request) (w : World) (me target : User.t) (user_id : Z) :
  current_user w = Some me ->
  User.category me = Some "executive" ->
  user_id <> User.id me ->
  get_user user_id w = Some target ->
  delete_user_blocked user_id w = true ->
  delete_user user_id req w = (Abort 500, w).
Proof.
  intros Hme Hcat Hother Hget Hblocked.
  destruct (get_user_id _ _ _ Hget) as [Hid _].
  destruct w as [us ps cs cu fl]. cbn in Hme. subst cu.
  unfold delete_user, roles_required, delete_user_view. run_handler. cbn.
  rewrite (executive_in_roles me Hcat). cbn.
  rewrite bool_decide_eq_false_2 by assumption.
  rewrite Hget. unfold delete_user_row. rewrite Hid, Hblocked. reflexivity.
Qed.

(** C10: when an executive deletes another identity and the delete goes
    through, that identity's posts and comments go with it: the users
    left are the others, the posts left are exactly the posts of the
    other authors and the comments left exactly the comments of the
    other authors, so no row authored by the deleted identity remains
    and none was merely detached.  The delete goes through exactly when
    no comment of another user sits on one of the identity's posts;
    otherwise the database refuses to detach that comment
    ([comments.post_id] is NOT NULL), the request ends in a server error
    and nothing is deleted, the identity included. *)
Theorem delete_user_cascades (req : Request) (w : World)
    (me target : User.t) (user_id : Z) :
  current_user w = Some me ->
  User.category me = Some "executive" ->
  user_id <> User.id me ->
  get_user user_id w = Some target ->
  let r := delete_user user_id req w in
  ((forall c p, c ∈ comments w -> Comment.author_id c <> user_id ->
                p ∈ blog_posts w -> BlogPost.author_id p = user_id ->
                Comment.post_id c <> BlogPost.id p) ->
     fst r = Redirect (UrlFor "blog.admin_dashboard" [])
     /\ users (snd r) = filter (fun u => User.id u <> user_id) (users w)
     /\ blog_posts (snd r) =
        filter (fun p => BlogPost.author_id p <> user_id) (blog_posts w)
     /\ comments (snd r) =
        filter (fun c => Comment.author_id c <> user_id) (comments w)
     /\ (forall u, u ∈ users (snd r) -> User.id u <> user_id)
     /\ (forall p, p ∈ blog_posts (snd r) -> BlogPost.author_id p <> user_id)
     /\ (forall c, c ∈ comments (snd r) -> Comment.author_id c <> user_id)
     /\ (forall p, p ∈ blog_posts w -> BlogPost.author_id p = user_id ->
           p ∉ blog_posts (snd r))
     /\ (forall c, c ∈ comments w -> Comment.author_id c = user_id ->
           c ∉ comments (snd r)))
  /\ ((exists c p, c ∈ comments w /\ Comment.author_id c <> user_id
                   /\ p ∈ blog_posts w /\ BlogPost.author_id p = user_id
                   /\ Comment.post_id c = BlogPost.id p) ->
      r = (Abort 500, w)).
Proof.
  intros Hme Hcat Hother Hget. cbn zeta. split.
  - intros Hfree. apply delete_user_blocked_false in Hfree.
    rewrite (delete_user_runs req w me target user_id Hme Hcat Hother Hget Hfree).
    unfold flashed, flash. cbn.
    split; [reflexivity|]. split; [reflexivity|]. split; [reflexivity|].
    split; [reflexivity|].
    split; [|split; [|split; [|split]]].
    + intros u Hu. apply list_elem_of_filter in Hu. tauto.
    + intros p Hp. apply list_elem_of_filter in Hp. tauto.
    + intros c Hc. apply list_elem_of_filter in Hc. tauto.
    + intros p _ Hauthor Hp. apply list_elem_of_filter in Hp. tauto.
    + intros c _ Hauthor Hc. apply list_elem_of_filter in Hc. tauto.
  - intros Hblocked. apply delete_user_blocked_true in Hblocked.
    apply (delete_user_fails req w me target user_id); assumption.
Qed.

End AdminFacts.

Lemma delete_user_refuses_self_witness :
  users (snd (delete_user 1 (Samples.post_form "/admin/delete_user/1" None)
                          Samples.office_ada)) = users Samples.office_ada
  /\ fst (delete_user 1 (Samples.post_form "/admin/delete_user/1" None)
                      Samples.office_ada) =
     Redirect (UrlFor "blog.admin_dashboard" []).
Proof.
  destruct (delete_user_refuses_self
              (Samples.post_form "/admin/delete_user/1" None)
              Samples.office_ada Samples.ada) as (Hr & Husers & _).
  - reflexivity.
  - reflexivity.
  - split; [exact Husers|].
    change (User.id Samples.ada) with 1%Z in Hr. rewrite Hr. reflexivity.
Defined.

Lemma delete_user_cascades_witness :
  blog_posts (snd (delete_user 2 (Samples.post_form "/admin/delete_user/2" None)
                               Samples.calm_ada)) = [Samples.post_by_ada]
  /\ comments (snd (delete_user 2 (Samples.post_form "/admin/delete_user/2" None)
                                Samples.calm_ada)) = [Samples.comment_on_own]
  /\ delete_user 2 (Samples.post_form "/admin/delete_user/2" None)
                 Samples.office_ada = (Abort 500, Samples.office_ada).
Proof.
  destruct (delete_user_cascades
              (Samples.post_form "/admin/delete_user/2" None)
              Samples.calm_ada Samples.ada Samples.dora 2)
    as (Hgone & _); [reflexivity|reflexivity|discriminate|reflexivity|].
  destruct (delete_user_cascades
              (Samples.post_form "/admin/delete_user/2" None)
              Samples.office_ada Samples.ada Samples.dora 2)
    as (_ & Hrefused); [reflexivity|reflexivity|discriminate|reflexivity|].
  destruct Hgone as (_ & _ & Hposts & Hcomments & _).
  { apply (proj1 (delete_user_blocked_false 2 Samples.calm_ada)).
    vm_compute. reflexivity. }
  split; [rewrite Hposts; vm_compute; reflexivity|].
  split; [rewrite Hcomments; vm_compute; reflexivity|].
  apply Hrefused.
  exists Samples.comment_by_ada, Samples.post_by_dora.
  cbn. rewrite !elem_of_cons. repeat split; auto; discriminate.
Defined.

(** * Further properties *)

(** ** What the forms accept *)

Section FormFacts.
Import Validators.

Lemma blank_rev_app (s acc : string) :
  blank (String.rev_app s acc) = blank s && blank acc.
Proof.
  revert acc.
  induction s as [|c s IH]; intros acc; cbn -[py_isspace]; [reflexivity|].
  rewrite IH. cbn -[py_isspace].
  destruct (py_isspace c), (blank s), (blank acc); reflexivity.
Qed.

Lemma truthy_rev_app (s acc : string) :
  truthy (String.rev_app s acc) = truthy s || truthy acc.
Proof.
  revert acc. induction s as [|c s IH]; intros acc; cbn; [reflexivity|].
  rewrite IH. cbn. apply orb_true_r.
Qed.

Lemma truthy_lstrip (s : string) : truthy (lstrip s) = negb (blank s).
Proof.
  induction s as [|c s IH]; cbn -[py_isspace]; [reflexivity|].
  destruct (py_isspace c); cbn; [exact IH|reflexivity].
Qed.

Lemma blank_lstrip (s : string) : blank (lstrip s) = blank s.
Proof.
  induction s as [|c s IH]; cbn -[py_isspace]; [reflexivity|].
  destruct (py_isspace c) eqn:Hc; cbn -[py_isspace]; [exact IH|].
  rewrite Hc. reflexivity.
Qed.

Lemma blank_not_truthy (s : string) : blank s = false -> truthy s = true.
Proof. destruct s; [discriminate|reflexivity]. Qed.

(** [DataRequired] accepts a value exactly when it has a character that
    is not whitespace. *)
Lemma DataRequired_visible (s : string) : DataRequired s = negb (blank s).
Proof.
  unfold DataRequired, strip, String.rev.
  rewrite truthy_rev_app, orb_false_r, truthy_lstrip.
  rewrite blank_rev_app, andb_true_r, blank_lstrip.
  destruct (blank s) eqn:Hb; cbn; [apply andb_false_r|].
  rewrite (blank_not_truthy s Hb). reflexivity.
Qed.

Lemma digits_then_newline_valid (p : string) :
  digits_then_newline p -> validate_pin p = true.
Proof.
  intros (d & -> & Hd & Hlo & Hhi).
  unfold validate_pin. rewrite DataRequired_visible.
  destruct d as [|c1 [|c2 [|c3 [|c4 [|c5 [|c6 d]]]]]];
    cbn in Hlo, Hhi; try lia;
    cbn -[is_digit_0_9] in Hd;
    repeat match type of Hd with
           | _ && _ = true =>
               let Hc := fresh "Hc" in apply andb_true_iff in Hd as [Hc Hd]
           end;
    cbv [String.app String.append]; cbn -[is_digit_0_9 py_isspace];
    rewrite (digit_not_space _ Hc); cbn -[is_digit_0_9];
    unfold Regexp_pin; cbn -[is_digit_0_9];
    repeat match goal with
           | Hx : is_digit_0_9 ?c = true |- context [is_digit_0_9 ?c] =>
               rewrite Hx; cbn -[is_digit_0_9]
           end;
    reflexivity.
Qed.

(** X3: the [pin] field validates exactly on a string of four to six digits
    and on four or five digits followed by one line feed. *)
Theorem validate_pin_iff (p : string) :
  validate_pin p = true <-> pin_4_to_6_digits p = true \/ digits_then_newline p.
Proof.
  split.
  - apply validate_pin_shape.
  - intros [Hdigits|Hnl].
    + apply validate_pin_of_digits, Hdigits.
    + apply digits_then_newline_valid, Hnl.
Qed.

(** X4: a registration form validates exactly when email, password, name and
    badge each have a character that is not whitespace, the company has
    at most 150 characters and the PIN passes its three validators. *)
Theorem RegisterForm_validate_iff (form : RegisterForm.t) :
  RegisterForm.validate form = true <->
  blank (RegisterForm.email form) = false
  /\ blank (RegisterForm.password form) = false
  /\ blank (RegisterForm.name form) = false
  /\ blank (RegisterForm.badge form) = false
  /\ (String.length (RegisterForm.company form) <= 150)%nat
  /\ validate_pin (RegisterForm.pin form) = true.
Proof.
  unfold RegisterForm.validate.
  rewrite !andb_true_iff, !DataRequired_visible, !negb_true_iff.
  unfold Length. cbn [andb]. rewrite Nat.leb_le.
  tauto.
Qed.

(** X5: a login form validates exactly when email and password each have a
    character that is not whitespace. *)
Theorem LoginForm_validate_iff (form : LoginForm.t) :
  LoginForm.validate form = true <->
  blank (LoginForm.email form) = false
  /\ blank (LoginForm.password form) = false.
Proof.
  unfold LoginForm.validate.
  rewrite andb_true_iff, !DataRequired_visible, !negb_true_iff. tauto.
Qed.

End FormFacts.

(** ** Roles *)

Section RoleFacts.
Import Classifier.

(** X1: the classifier only ever returns one of the eight role names. *)
Theorem determine_user_category_range (b : option string) :
  determine_user_category b ∈
    ["executive"; "vip"; "director"; "manager"; "newHire"; "campaign";
     "regular"; "unknown"].
Proof.
  destruct b as [[|c rest]|]; cbn -[categories];
    try (rewrite !elem_of_cons; tauto).
  rewrite categories_lookup. unfold role_of_first_char.
  repeat case_decide; rewrite !elem_of_cons; tauto.
Qed.

(** X2: two badges that get the same role other than unknown start with the
    same character: each known role belongs to one leading digit. *)
Theorem determine_user_category_first_char_unique
    (c c' : ascii) (rest rest' : string) :
  determine_user_category (Some (String c rest)) =
    determine_user_category (Some (String c' rest')) ->
  determine_user_category (Some (String c rest)) <> "unknown" ->
  c = c'.
Proof.
  cbn -[categories]. rewrite !categories_lookup. unfold role_of_first_char.
  intros Hsame Hknown.
  repeat case_decide; subst; try reflexivity;
    try discriminate Hsame; try congruence.
Qed.

End RoleFacts.

Lemma determine_user_category_first_char_unique_witness :
  "3"%char = "3"%char.
Proof.
  apply (determine_user_category_first_char_unique "3" "3" "999" "000").
  - vm_compute. reflexivity.
  - vm_compute. discriminate.
Defined.

(** ** Badge/PIN API, continued *)

Section ApiMoreFacts.
Context {hasher : Hasher}.

Lemma find_user_by_badge_Some (b : string) (w : World) (u : User.t) :
  find_user_by_badge b w = Some u -> User.badge u = b /\ u ∈ users w.
Proof.
  unfold find_user_by_badge. intros Hhead.
  apply head_Some_elem_of, list_elem_of_filter in Hhead. exact Hhead.
Qed.

(** X8: the endpoint answers 200 only for a request that names the badge of
    a stored user together with a PIN that the hasher accepts against
    that user's PIN digest; the body then shows that user's id, name,
    email and category. *)
Theorem authenticate_success_sound (req : Request) (w : World)
    (body : list (string * JsonValue)) :
  fst (authenticate_badge_pin req w) = Jsonify body 200 ->
  exists data badge pin user,
    get_json req = Some data
    /\ dict_get data "badge" = Some badge
    /\ dict_get data "pin" = Some pin
    /\ user ∈ users w
    /\ User.badge user = badge
    /\ check_password_hash (User.pin user) pin = true
    /\ body = [("status", JStr "success");
               ("message", JStr "Authentication successful");
               ("user_id", JInt (User.id user));
               ("name", JStr (User.name user));
               ("email", JStr (User.email user));
               ("category", json_of_option (User.category user))].
Proof.
  unfold authenticate_badge_pin. run_handler.
  destruct (get_json req) as [data|]; [|cbn; discriminate].
  destruct (bool_decide (data = ∅)); [cbn; discriminate|].
  destruct (dict_get data "badge") as [badge|] eqn:Hb; [|cbn; discriminate].
  destruct (dict_get data "pin") as [pin|] eqn:Hp;
    [|cbn; rewrite orb_true_r; cbn; discriminate].
  destruct badge as [|cb badge']; [cbn; discriminate|].
  destruct pin as [|cp pin']; [cbn; discriminate|].
  cbn [falsy default from_option id Validators.truthy negb orb].
  destruct (find_user_by_badge (String cb badge') w) as [user|] eqn:Hfind;
    [|cbn; discriminate].
  destruct (find_user_by_badge_Some _ _ _ Hfind) as [Hbadge Hin].
  destruct (check_password_hash (User.pin user) (String cp pin')) eqn:Hcheck;
    [|cbn; discriminate].
  cbn. intros Hbody. injection Hbody as <-.
  exists data, (String cb badge'), (String cp pin'), user. repeat split; auto.
Qed.


End ApiMoreFacts.

Lemma authenticate_success_sound_witness :
  exists user, user ∈ users Samples.office /\ User.badge user = "3999".
Proof.
  destruct (@authenticate_success_sound Samples.transparent_hasher
              (Samples.post_json (<["badge" := Some "3999"]>
                                    (<["pin" := Some "4321"]> ∅)))
              Samples.office
              [("status", JStr "success");
               ("message", JStr "Authentication successful");
               ("user_id", JInt 2); ("name", JStr "Dora");
               ("email", JStr "dora@example.org");
               ("category", JStr "director")])
    as (data & badge & pin & user & Hjson & Hb & Hp & Hin & Hbadge & _).
  - vm_compute. reflexivity.
  - exists user. split; [exact Hin|].
    injection Hjson as <-. vm_compute in Hb. injection Hb as <-. exact Hbadge.
Defined.


Lemma authenticate_missing_field_witness :
  fst (@authenticate_badge_pin Samples.transparent_hasher
         (Samples.post_json (<["badge" := Some "3999"]> ∅)) Samples.office) =
  Jsonify (error_body "Missing badge or pin") 400.
Proof.
  rewrite (@authenticate_missing_field Samples.transparent_hasher
             (Samples.post_json (<["badge" := Some "3999"]> ∅))
             (<["badge" := Some "3999"]> ∅) Samples.office).
  - reflexivity.
  - reflexivity.
  - apply insert_non_empty.
  - vm_compute. reflexivity.
Defined.

(** ** Registration, login and logout together *)

Section AccountFacts.
Context {hasher : Hasher}.

Lemma head_filter_None {A} (P : A -> Prop) `{!forall x, base.Decision (P x)}
    (l : list A) :
  head (filter P l) = None -> forall x, x ∈ l -> ~ P x.
Proof.
  intros Hhead x Hx HP.
  assert (Hin : x ∈ filter P l) by (apply list_elem_of_filter; auto).
  destruct (filter P l); [inversion Hin|discriminate Hhead].
Qed.

Lemma head_filter_snoc {A} (P : A -> Prop) `{!forall x, base.Decision (P x)}
    (l : list A) (y : A) :
  head (filter P l) = None -> P y -> head (filter P (l ++ [y])%list) = Some y.
Proof.
  intros Hhead Hy. rewrite filter_app.
  destruct (filter P l) eqn:Hl; [|discriminate Hhead].
  rewrite app_nil_l, filter_cons_True by assumption. reflexivity.
Qed.

Lemma max_id_bound (ids : list Z) (x : Z) :
  x ∈ ids -> (x <= foldr Z.max 0 ids)%Z.
Proof.
  induction ids as [|y ids IH]; intros Hx; [inversion Hx|].
  cbn. apply elem_of_cons in Hx as [->|Hx]; [lia|].
  specialize (IH Hx). lia.
Qed.

Lemma NoDup_snoc_fresh {A} (l : list A) (x : A) :
  NoDup l -> x ∉ l -> NoDup (l ++ [x])%list.
Proof.
  intros Hl Hx. apply NoDup_app. split; [exact Hl|]. split.
  - intros y Hy Hin. apply list_elem_of_singleton in Hin. subst. auto.
  - apply NoDup_singleton.
Qed.

(** What a registration that goes through leaves. *)
Lemma register_success (salt_password salt_pin : string)
    (req : Request) (form : RegisterForm.t) (w : World) :
  is_submitted req && RegisterForm.validate form = true ->
  find_user_by_email (RegisterForm.email form) w = None ->
  find_user_by_badge (RegisterForm.badge form) w = None ->
  register salt_password salt_pin req form w =
  (Redirect (UrlFor "blog.login" []),
   mkWorld (users w ++ [new_user salt_password salt_pin form (next_user_id w)])
           (blog_posts w) (comments w) (current_user w)
           (flashes w ++ [("Registration successful! Please log in to continue.",
                           "success")])).
Proof.
  intros Hvalid He Hb. unfold register. rewrite Hvalid. run_handler.
  rewrite He, Hb. reflexivity.
Qed.

(** The users table either stays as it is or gets the new row. *)
Lemma register_users (salt_password salt_pin : string)
    (req : Request) (form : RegisterForm.t) (w : World) :
  users (snd (register salt_password salt_pin req form w)) = users w
  \/ (find_user_by_email (RegisterForm.email form) w = None
      /\ find_user_by_badge (RegisterForm.badge form) w = None
      /\ users (snd (register salt_password salt_pin req form w)) =
         (users w ++ [new_user salt_password salt_pin form (next_user_id w)])%list).
Proof.
  unfold register. run_handler.
  destruct (is_submitted req && RegisterForm.validate form); [|left; reflexivity].
  destruct (find_user_by_email _ w) eqn:He; [left; reflexivity|].
  destruct (find_user_by_badge _ w) eqn:Hb; [left; reflexivity|].
  right. auto.
Qed.

(** What a login that goes through answers and leaves. *)
Lemma login_success (req : Request) (form : LoginForm.t) (w : World)
    (user : User.t) :
  is_submitted req = true ->
  LoginForm.validate form = true ->
  find_user_by_email (LoginForm.email form) w = Some user ->
  check_password_hash (User.password user) (LoginForm.password form) = true ->
  login req form w =
  (Redirect match args_next req with
            | Some target =>
                if Validators.truthy target then Raw target
                else UrlFor "blog.get_all_posts" []
            | None => UrlFor "blog.get_all_posts" []
            end,
   mkWorld (users w) (blog_posts w) (comments w) (Some user) (flashes w)).
Proof.
  intros Hsub Hval Hfind Hcheck. unfold login. rewrite Hsub, Hval.
  run_handler. cbn [andb]. cbv beta. rewrite Hfind, Hcheck. reflexivity.
Qed.

(** X10: registration keeps the unique columns of the users table unique:
    if no two rows share an id, an email or a badge before the request,
    none do after it, whatever the request holds. *)
Theorem register_keeps_unique_users (salt_password salt_pin : string)
    (req : Request) (form : RegisterForm.t) (w : World) :
  unique_users w ->
  unique_users (snd (register salt_password salt_pin req form w)).
Proof.
  intros (Hid & Hemail & Hbadge). unfold unique_users.
  destruct (register_users salt_password salt_pin req form w)
    as [->|(He & Hb & ->)]; [auto|].
  rewrite !fmap_app. cbn.
  split; [|split]; apply NoDup_snoc_fresh; trivial.
  - intros Hin. apply max_id_bound in Hin. unfold next_user_id in Hin. lia.
  - intros Hin. apply list_elem_of_fmap in Hin as (u & Heq & Hu).
    apply (head_filter_None _ _ He u Hu). congruence.
  - intros Hin. apply list_elem_of_fmap in Hin as (u & Heq & Hu).
    apply (head_filter_None _ _ Hb u Hu). congruence.
Qed.

(** X11: a registration that went through can be used at once: a login
    submission with the same email and password finds the new row,
    makes it the session identity and, without a [next] target, lands on
    the post list, provided the hasher accepts the password against the
    digest it produced for it. *)
Theorem register_then_login (salt_password salt_pin : string)
    (req login_req : Request) (form : RegisterForm.t) (w : World) :
  is_submitted req && RegisterForm.validate form = true ->
  find_user_by_email (RegisterForm.email form) w = None ->
  find_user_by_badge (RegisterForm.badge form) w = None ->
  check_password_hash
    (generate_password_hash (RegisterForm.password form) salt_password)
    (RegisterForm.password form) = true ->
  is_submitted login_req = true ->
  let w1 := snd (register salt_password salt_pin req form w) in
  let r := login login_req
                 (LoginForm.mk (RegisterForm.email form) (RegisterForm.password form))
                 w1 in
  current_user (snd r) =
    Some (new_user salt_password salt_pin form (next_user_id w))
  /\ users (snd r) = users w1
  /\ (args_next login_req = None ->
      fst r = Redirect (UrlFor "blog.get_all_posts" [])).
Proof.
  intros Hvalid He Hb Hcheck Hsub. cbn zeta.
  rewrite (register_success _ _ _ _ _ Hvalid He Hb). cbn [snd].
  assert (Hlogin : LoginForm.validate
            (LoginForm.mk (RegisterForm.email form) (RegisterForm.password form))
          = true).
  { apply andb_true_iff in Hvalid as [_ Hv]. unfold RegisterForm.validate in Hv.
    do 5 (apply andb_true_iff in Hv as [Hv ?]).
    unfold LoginForm.validate. cbn [LoginForm.email LoginForm.password].
    apply andb_true_iff. split; assumption. }
  set (row := new_user salt_password salt_pin form (next_user_id w)).
  set (w1 := mkWorld _ _ _ _ _).
  assert (Hfind : find_user_by_email (RegisterForm.email form) w1 = Some row).
  { unfold find_user_by_email, w1. cbn [users].
    apply (head_filter_snoc (fun u => User.email u = RegisterForm.email form));
      [exact He|reflexivity]. }
  rewrite (login_success login_req _ w1 row Hsub Hlogin Hfind Hcheck).
  cbn [fst snd]. repeat split. intros ->. reflexivity.
Qed.

(** X12: likewise for the API: after a registration that went through, a
    request with the same badge and PIN is answered 200 with the new
    row's id, name and email and with the category the classifier gives
    the badge, provided the hasher accepts the PIN against its digest. *)
Theorem register_then_authenticate (salt_password salt_pin : string)
    (req api_req : Request) (form : RegisterForm.t) (w : World)
    (data : gmap string (option string)) :
  is_submitted req && RegisterForm.validate form = true ->
  find_user_by_email (RegisterForm.email form) w = None ->
  find_user_by_badge (RegisterForm.badge form) w = None ->
  check_password_hash
    (generate_password_hash (RegisterForm.pin form) salt_pin)
    (RegisterForm.pin form) = true ->
  get_json api_req = Some data ->
  dict_get data "badge" = Some (RegisterForm.badge form) ->
  dict_get data "pin" = Some (RegisterForm.pin form) ->
  fst (authenticate_badge_pin api_req
         (snd (register salt_password salt_pin req form w))) =
  Jsonify [("status", JStr "success");
           ("message", JStr "Authentication successful");
           ("user_id", JInt (next_user_id w));
           ("name", JStr (RegisterForm.name form));
           ("email", JStr (RegisterForm.email form));
           ("category",
            JStr (Classifier.determine_user_category
                    (Some (RegisterForm.badge form))))] 200.
Proof.
  intros Hvalid He Hb Hcheck Hjson Hbadge Hpin.
  rewrite (register_success _ _ _ _ _ Hvalid He Hb). cbn [snd].
  assert (Hfields : RegisterForm.badge form <> "" /\ RegisterForm.pin form <> "").
  { apply andb_true_iff in Hvalid as [_ Hv]. unfold RegisterForm.validate in Hv.
    repeat (apply andb_true_iff in Hv as [Hv ?]).
    unfold Validators.validate_pin in *.
    repeat match goal with
           | Hx : _ && _ = true |- _ => apply andb_true_iff in Hx as [Hx ?]
           end.
    unfold Validators.DataRequired in *.
    repeat match goal with
           | Hx : _ && _ = true |- _ => apply andb_true_iff in Hx as [Hx ?]
           end.
    split; intros Hempty; rewrite Hempty in *; discriminate. }
  destruct Hfields as [Hbne Hpne].
  rewrite (authenticate_lookup api_req data _ _ _ Hjson Hbadge Hbne Hpin Hpne).
  cbn [fst]. unfold find_user_by_badge at 1. cbn [users].
  rewrite (head_filter_snoc (fun u => User.badge u = RegisterForm.badge form))
    by (trivial; reflexivity).
  cbn [new_user User.pin]. rewrite Hcheck. reflexivity.
Qed.

(** X13: login never writes to the tables: users, posts and comments are the
    same after it for every request, form and world. *)
Theorem login_keeps_tables (req : Request) (form : LoginForm.t) (w : World) :
  let w' := snd (login req form w) in
  users w' = users w /\ blog_posts w' = blog_posts w /\ comments w' = comments w.
Proof.
  cbn zeta. unfold login. run_handler.
  destruct (is_submitted req && LoginForm.validate form); [|cbn; auto].
  destruct (find_user_by_email _ w); [|cbn; auto].
  destruct (negb (check_password_hash _ _)); cbn; auto.
Qed.

(** X14: logout ends the session and nothing else: the tables and the flash
    queue stay, the answer is the post list, and afterwards every
    role-gated view answers with the redirect to the login page without
    running. *)
Theorem logout_then_guard (required_roles : list string)
    (f : handler Response) (req : Request) (w : World) :
  let w1 := snd (logout w) in
  fst (logout w) = Redirect (UrlFor "blog.get_all_posts" [])
  /\ current_user w1 = None
  /\ users w1 = users w /\ blog_posts w1 = blog_posts w
  /\ comments w1 = comments w /\ flashes w1 = flashes w
  /\ roles_required required_roles f req w1 =
     (Redirect (UrlFor "blog.login" [("next", url req)]),
      flashed "You must be logged in to view this page." "warning" w1).
Proof.
  cbn zeta. unfold logout, logout_user, roles_required. run_handler. cbn.
  repeat split.
Qed.

End AccountFacts.

Lemma register_keeps_unique_users_witness :
  unique_users (snd (Samples.register_at_office (Samples.form_eve "1234"))).
Proof.
  apply (@register_keeps_unique_users Samples.transparent_hasher).
  repeat split; apply (bool_decide_unpack _); vm_compute; exact I.
Defined.

Lemma register_then_login_witness :
  current_user
    (snd (@login Samples.transparent_hasher (Samples.post_form "/login" None)
            (LoginForm.mk "eve@example.org" "s3cret")
            (snd (Samples.register_at_office (Samples.form_eve "1234"))))) =
  Some (@new_user Samples.transparent_hasher "salt0001" "salt0002"
          (Samples.form_eve "1234") 3).
Proof.
  unfold Samples.register_at_office.
  destruct (@register_then_login Samples.transparent_hasher
              "salt0001" "salt0002" (Samples.post_form "/register" None)
              (Samples.post_form "/login" None) (Samples.form_eve "1234")
              Samples.office) as (Hsession & _).
  - vm_compute. reflexivity.
  - vm_compute. reflexivity.
  - vm_compute. reflexivity.
  - vm_compute. reflexivity.
  - reflexivity.
  - exact Hsession.
Defined.

Lemma register_then_authenticate_witness :
  fst (@authenticate_badge_pin Samples.transparent_hasher
         (Samples.post_json (<["badge" := Some "7007"]> (<["pin" := Some "1234"]> ∅)))
         (snd (Samples.register_at_office (Samples.form_eve "1234")))) =
  Jsonify [("status", JStr "success");
           ("message", JStr "Authentication successful");
           ("user_id", JInt 3); ("name", JStr "Eve");
           ("email", JStr "eve@example.org");
           ("category", JStr "regular")] 200.
Proof.
  unfold Samples.register_at_office.
  rewrite (@register_then_authenticate Samples.transparent_hasher
             "salt0001" "salt0002" (Samples.post_form "/register" None)
             (Samples.post_json (<["badge" := Some "7007"]> (<["pin" := Some "1234"]> ∅)))
             (Samples.form_eve "1234") Samples.office
             (<["badge" := Some "7007"]> (<["pin" := Some "1234"]> ∅))).
  - vm_compute. reflexivity.
  - vm_compute. reflexivity.
  - vm_compute. reflexivity.
  - vm_compute. reflexivity.
  - vm_compute. reflexivity.
  - reflexivity.
  - vm_compute. reflexivity.
  - vm_compute. reflexivity.
Defined.

(** ** Who may do what *)

Section AccessFacts.
Context {url_validator : UrlValidator}.

Lemma roles_required_allows (required_roles : list string)
    (f : handler Response) (req : Request) (w : World) (me : User.t) :
  current_user w = Some me ->
  in_roles (User.category me) required_roles = true ->
  roles_required required_roles f req w = f w.
Proof.
  intros Hme Hin. destruct w as [us ps cs cu fl]. cbn in Hme. subst cu.
  unfold roles_required. run_handler. cbn. rewrite Hin. reflexivity.
Qed.

Lemma roles_required_denies (required_roles : list string)
    (f : handler Response) (req : Request) (w : World) :
  (forall me, current_user w = Some me ->
              in_roles (User.category me) required_roles = false) ->
  roles_required required_roles f req w = denied req w.
Proof.
  intros Hout. destruct w as [us ps cs [me|] fl]; cbn in Hout.
  - unfold roles_required, denied. run_handler. cbn.
    rewrite (Hout me eq_refl). reflexivity.
  - reflexivity.
Qed.

Lemma denied_tables (req : Request) (w : World) :
  users (snd (denied req w)) = users w
  /\ blog_posts (snd (denied req w)) = blog_posts w
  /\ comments (snd (denied req w)) = comments w
  /\ current_user (snd (denied req w)) = current_user w.
Proof. destruct w as [us ps cs [me|] fl]; cbn; auto. Qed.

Lemma not_executive (category : option string) :
  category <> Some "executive" -> in_roles category ["executive"] = false.
Proof.
  intros Hne. destruct category as [c|]; [|reflexivity]. cbn.
  apply bool_decide_eq_false_2. intros Hin.
  apply list_elem_of_singleton in Hin. congruence.
Qed.

Lemma not_author (category : option string) :
  category <> Some "executive" -> category <> Some "director" ->
  in_roles category ["executive"; "director"] = false.
Proof.
  intros He Hd. destruct category as [c|]; [|reflexivity]. cbn.
  apply bool_decide_eq_false_2. rewrite !elem_of_cons, elem_of_nil.
  intros [->|[->|[]]]; congruence.
Qed.

(** X15: deleting a post, deleting a user and the dashboard are for
    executives only: for any other caller, a director included, each of
    the three answers 403 (or the redirect to the login page when nobody
    is logged in) and no table changes. *)
Theorem executive_only_routes (req : Request) (w : World)
    (post_id user_id : Z) :
  (forall me, current_user w = Some me ->
              User.category me <> Some "executive") ->
  delete_post post_id req w = denied req w
  /\ delete_user user_id req w = denied req w
  /\ admin_dashboard req w = denied req w
  /\ users (snd (denied req w)) = users w
  /\ blog_posts (snd (denied req w)) = blog_posts w
  /\ comments (snd (denied req w)) = comments w.
Proof.
  intros Hout.
  assert (Hroles : forall me, current_user w = Some me ->
                     in_roles (User.category me) ["executive"] = false)
    by (intros me Hme; apply not_executive, (Hout me Hme)).
  unfold delete_post, delete_user, admin_dashboard.
  rewrite !(roles_required_denies _ _ _ _ Hroles).
  pose proof (denied_tables req w). tauto.
Qed.

(** X16: creating and editing posts is for executives and directors: for any
    other caller both routes answer 403 (or the redirect to the login
    page) whatever the form holds, and no table changes. *)
Theorem author_only_routes (today : string) (req : Request) (w : World)
    (form : CreatePostForm.t) (post_id : Z) (sent : PostFields.t) :
  (forall me, current_user w = Some me ->
              User.category me <> Some "executive"
              /\ User.category me <> Some "director") ->
  add_new_post today req form w = denied req w
  /\ edit_post post_id req sent w = denied req w
  /\ users (snd (denied req w)) = users w
  /\ blog_posts (snd (denied req w)) = blog_posts w
  /\ comments (snd (denied req w)) = comments w.
Proof.
  intros Hout.
  assert (Hroles : forall me, current_user w = Some me ->
                     in_roles (User.category me) ["executive"; "director"] = false)
    by (intros me Hme; destruct (Hout me Hme); apply not_author; assumption).
  unfold add_new_post, edit_post.
  rewrite !(roles_required_denies _ _ _ _ Hroles).
  pose proof (denied_tables req w). tauto.
Qed.

(** X17: an executive asking to delete an id that no row has gets 404, and
    nothing changes. *)
Theorem delete_user_unknown_id (req : Request) (w : World) (me : User.t)
    (user_id : Z) :
  current_user w = Some me ->
  User.category me = Some "executive" ->
  user_id <> User.id me ->
  get_user user_id w = None ->
  delete_user user_id req w = (Abort 404, w).
Proof.
  intros Hme Hcat Hother Hget. unfold delete_user.
  rewrite (roles_required_allows _ _ _ _ me Hme) by (rewrite Hcat; reflexivity).
  destruct w as [us ps cs cu fl]. cbn in Hme. subst cu.
  unfold delete_user_view. run_handler. cbn.
  rewrite bool_decide_eq_false_2 by assumption. rewrite Hget. reflexivity.
Qed.

End AccessFacts.

(** ** Foreign keys and deletes *)

Section IntegrityFacts.
Context {url_validator : UrlValidator}.

Lemma get_post_Some (post_id : Z) (w : World) (p : BlogPost.t) :
  get_post post_id w = Some p -> BlogPost.id p = post_id /\ p ∈ blog_posts w.
Proof.
  unfold get_post. intros Hhead.
  apply head_Some_elem_of, list_elem_of_filter in Hhead. exact Hhead.
Qed.

Lemma foreign_keys_same_tables (w w' : World) :
  users w' = users w -> blog_posts w' = blog_posts w ->
  comments w' = comments w ->
  foreign_keys_hold w -> foreign_keys_hold w'.
Proof.
  unfold foreign_keys_hold. intros -> -> ->. trivial.
Qed.

Lemma delete_post_blocked_true (post_id : Z) (w : World) :
  delete_post_blocked post_id w = true <->
  exists c, c ∈ comments w /\ Comment.post_id c = post_id.
Proof.
  unfold delete_post_blocked. rewrite bool_decide_eq_true, Exists_exists.
  reflexivity.
Qed.

Lemma delete_post_blocked_false (post_id : Z) (w : World) :
  delete_post_blocked post_id w = false <->
  forall c, c ∈ comments w -> Comment.post_id c <> post_id.
Proof.
  rewrite <- not_true_iff_false, delete_post_blocked_true. split.
  - intros Hnone c Hc Hon. apply Hnone. eauto.
  - intros Hall (c & Hc & Hon). apply (Hall c); assumption.
Qed.

Lemma delete_user_row_foreign_keys (target : User.t) (w : World) :
  foreign_keys_hold w -> foreign_keys_hold (snd (delete_user_row target w)).
Proof.
  intros Hfk. unfold delete_user_row.
  destruct (delete_user_blocked (User.id target) w) eqn:Hblocked; [exact Hfk|].
  destruct Hfk as (Hposts & Hauthors & Hparents).
  rewrite Forall_forall in Hposts. rewrite Forall_forall in Hauthors.
  rewrite Forall_forall in Hparents.
  pose proof (proj1 (delete_user_blocked_false _ _) Hblocked) as Hfree.
  unfold foreign_keys_hold. cbn.
  assert (Hkept : forall a, a <> User.id target -> a ∈ User.id <$> users w ->
            a ∈ User.id <$> filter (fun u => User.id u <> User.id target) (users w)).
  { intros a Ha Hin. apply list_elem_of_fmap in Hin as (u & -> & Hu).
    apply list_elem_of_fmap_2, list_elem_of_filter. auto. }
  split; [|split]; apply Forall_forall.
  - intros p Hp. apply list_elem_of_filter in Hp as [Hne Hp]. auto.
  - intros c Hc. apply list_elem_of_filter in Hc as [Hne Hc]. auto.
  - intros c Hc. apply list_elem_of_filter in Hc as [Hne Hc].
    specialize (Hparents c Hc).
    apply list_elem_of_fmap in Hparents as (p & Hid & Hp).
    rewrite Hid. apply list_elem_of_fmap_2, list_elem_of_filter.
    split; [|exact Hp]. intros Hmine. exact (Hfree c p Hc Hne Hp Hmine Hid).
Qed.

Lemma delete_post_row_foreign_keys (post : BlogPost.t) (w : World) :
  foreign_keys_hold w -> foreign_keys_hold (snd (delete_post_row post w)).
Proof.
  intros Hfk. unfold delete_post_row.
  destruct (delete_post_blocked (BlogPost.id post) w) eqn:Hblocked; [exact Hfk|].
  destruct Hfk as (Hposts & Hauthors & Hparents).
  rewrite Forall_forall in Hposts. rewrite Forall_forall in Hparents.
  pose proof (proj1 (delete_post_blocked_false _ _) Hblocked) as Hfree.
  unfold foreign_keys_hold. cbn.
  split; [|split]; [|exact Hauthors|]; apply Forall_forall.
  - intros p Hp. apply list_elem_of_filter in Hp as [_ Hp]. auto.
  - intros c Hc. specialize (Hparents c Hc).
    apply list_elem_of_fmap in Hparents as (p & Hid & Hp).
    rewrite Hid. apply list_elem_of_fmap_2, list_elem_of_filter.
    split; [|exact Hp]. intros Hsame. apply (Hfree c Hc). congruence.
Qed.

(** The tables after [delete_user] are those before it or those after
    the delete of one row. *)
Lemma delete_user_tables (user_id : Z) (req : Request) (w : World) :
  let w' := snd (delete_user user_id req w) in
  exists w0, (w0 = w \/ exists target, w0 = snd (delete_user_row target w))
             /\ users w' = users w0 /\ blog_posts w' = blog_posts w0
             /\ comments w' = comments w0.
Proof.
  cbn zeta. destruct w as [us ps cs [me|] fl].
  - unfold delete_user, roles_required, delete_user_view. run_handler. cbn.
    destruct (in_roles (User.category me) ["executive"]); cbn;
      [|eexists; split; [left; reflexivity|cbn; auto]].
    case_bool_decide; cbn; [eexists; split; [left; reflexivity|cbn; auto]|].
    destruct (get_user user_id _) as [target|]; cbn;
      [|eexists; split; [left; reflexivity|cbn; auto]].
    eexists; split; [right; exists target; reflexivity|].
    destruct (delete_user_row target _) as [[|] w1]; cbn; auto.
  - eexists; split; [left; reflexivity|cbn; auto].
Qed.

Lemma delete_post_tables (post_id : Z) (req : Request) (w : World) :
  let w' := snd (delete_post post_id req w) in
  exists w0, (w0 = w \/ exists post, w0 = snd (delete_post_row post w))
             /\ users w' = users w0 /\ blog_posts w' = blog_posts w0
             /\ comments w' = comments w0.
Proof.
  cbn zeta. destruct w as [us ps cs [me|] fl].
  - unfold delete_post, roles_required, delete_post_view. run_handler. cbn.
    destruct (in_roles (User.category me) ["executive"]); cbn;
      [|eexists; split; [left; reflexivity|cbn; auto]].
    destruct (get_post post_id _) as [post|]; cbn;
      [|eexists; split; [left; reflexivity|cbn; auto]].
    eexists; split; [right; exists post; reflexivity|].
    destruct (delete_post_row post _) as [[|] w1]; cbn; auto.
  - eexists; split; [left; reflexivity|cbn; auto].
Qed.

(** X18: deleting a user never leaves a dangling reference: if every
    post's author, every comment's author and every comment's post is an
    existing row before the request, each still is after it, whoever
    asks and whatever the id (a delete that would orphan a comment of
    another user is refused as a whole). *)
Theorem delete_user_keeps_foreign_keys (user_id : Z) (req : Request) (w : World) :
  foreign_keys_hold w ->
  foreign_keys_hold (snd (delete_user user_id req w)).
Proof.
  intros Hfk.
  destruct (delete_user_tables user_id req w) as (w0 & Hw0 & Hu & Hp & Hc).
  apply (foreign_keys_same_tables w0); trivial.
  destruct Hw0 as [->|[target ->]]; [exact Hfk|].
  apply delete_user_row_foreign_keys, Hfk.
Qed.

(** X19: neither does deleting a post: a post that has comments is not
    deleted at all, and deleting one without comments orphans nothing. *)
Theorem delete_post_keeps_foreign_keys (post_id : Z) (req : Request) (w : World) :
  foreign_keys_hold w ->
  foreign_keys_hold (snd (delete_post post_id req w)).
Proof.
  intros Hfk.
  destruct (delete_post_tables post_id req w) as (w0 & Hw0 & Hu & Hp & Hc).
  apply (foreign_keys_same_tables w0); trivial.
  destruct Hw0 as [->|[post ->]]; [exact Hfk|].
  apply delete_post_row_foreign_keys, Hfk.
Qed.

(** X20: an executive can delete a post only while it has no comment.
    With a comment on it the database refuses to detach the comment
    ([comments.post_id] is NOT NULL): the request ends in a server error
    and nothing changes.  Without one the row is removed, the answer is
    the redirect to the post list, and users and comments are as
    before. *)
Theorem delete_post_blocked_by_comments (post_id : Z) (req : Request)
    (w : World) (me : User.t) (post : BlogPost.t) :
  current_user w = Some me ->
  User.category me = Some "executive" ->
  get_post post_id w = Some post ->
  let r := delete_post post_id req w in
  ((exists c, c ∈ comments w /\ Comment.post_id c = post_id) ->
     r = (Abort 500, w))
  /\ ((forall c, c ∈ comments w -> Comment.post_id c <> post_id) ->
      fst r = Redirect (UrlFor "blog.get_all_posts" [])
      /\ blog_posts (snd r) =
         filter (fun p => BlogPost.id p <> post_id) (blog_posts w)
      /\ (forall p, p ∈ blog_posts (snd r) -> BlogPost.id p <> post_id)
      /\ users (snd r) = users w
      /\ comments (snd r) = comments w
      /\ current_user (snd r) = current_user w
      /\ flashes (snd r) = flashes w).
Proof.
  intros Hme Hcat Hget. cbn zeta. unfold delete_post.
  rewrite (roles_required_allows _ _ _ _ me Hme) by (rewrite Hcat; reflexivity).
  destruct (get_post_Some _ _ _ Hget) as [Hid _].
  unfold delete_post_view. run_handler. rewrite Hget.
  unfold delete_post_row. rewrite Hid. split.
  - intros Hblocked. apply delete_post_blocked_true in Hblocked.
    rewrite Hblocked. reflexivity.
  - intros Hfree. apply delete_post_blocked_false in Hfree.
    rewrite Hfree. cbn. repeat split.
    intros p Hp. apply list_elem_of_filter in Hp. tauto.
Qed.

End IntegrityFacts.

(** ** Comments and posts *)

Section ContentFacts.
Context {url_validator : UrlValidator}.

Lemma NoDup_fmap_filter {A B} (f : A -> B) (P : A -> Prop)
    `{!forall x, base.Decision (P x)} (l : list A) :
  NoDup (f <$> l) -> NoDup (f <$> filter P l).
Proof.
  induction l as [|x l IH]; [trivial|].
  rewrite fmap_cons, NoDup_cons. intros [Hx Hl].
  rewrite filter_cons. destruct (decide (P x)); [|auto].
  rewrite fmap_cons, NoDup_cons. split; [|auto].
  intros Hin. apply Hx.
  apply list_elem_of_fmap in Hin as (y & -> & Hy).
  apply list_elem_of_filter in Hy as [_ Hy].
  apply list_elem_of_fmap_2, Hy.
Qed.

(** The tables after [show_post]: users and posts as before, comments as
    before or with one row by the caller on the requested post. *)
Lemma show_post_frame (post_id : Z) (req : Request)
    (form : CommentForm.t) (w : World) :
  let w' := snd (show_post post_id req form w) in
  users w' = users w
  /\ blog_posts w' = blog_posts w
  /\ (comments w' = comments w
      \/ exists user,
           current_user w = Some user
           /\ post_id ∈ BlogPost.id <$> blog_posts w
           /\ comments w' =
              (comments w ++
                 [Comment.mk (next_comment_id w)
                             (CommentForm.comment_text form)
                             (User.id user) post_id])%list).
Proof.
  cbn zeta. destruct w as [us ps cs cu fl].
  unfold show_post. run_handler. cbn [blog_posts comments users current_user].
  destruct (get_post post_id _) as [post|] eqn:Hget; [|cbn; auto].
  destruct (get_post_Some _ _ _ Hget) as [Hid Hin]. cbn in Hin.
  destruct (is_submitted req && CommentForm.validate form); [|cbn; auto].
  destruct cu as [user|]; cbn; [|auto].
  split; [reflexivity|]. split; [reflexivity|]. right. exists user.
  rewrite Hid. repeat split.
  rewrite <- Hid. apply list_elem_of_fmap_2, Hin.
Qed.

(** X21: a comment is written only by a POST with a text that is not blank,
    from a logged-in caller, on a post that exists; in that case exactly
    one row is appended, authored by the caller and attached to that
    post, whatever the caller's role, and the answer is the redirect
    back to the post.  Users, posts and the session identity never
    change. *)
Theorem show_post_writes (post_id : Z) (req : Request)
    (form : CommentForm.t) (w : World) :
  let r := show_post post_id req form w in
  users (snd r) = users w
  /\ blog_posts (snd r) = blog_posts w
  /\ current_user (snd r) = current_user w
  /\ (comments (snd r) = comments w
      \/ exists user,
           current_user w = Some user
           /\ post_id ∈ BlogPost.id <$> blog_posts w
           /\ method req = POST
           /\ blank (CommentForm.comment_text form) = false
           /\ fst r = Redirect (UrlFor "blog.show_post"
                                       [("post_id", pretty post_id)])
           /\ comments (snd r) =
              (comments w ++
                 [Comment.mk (next_comment_id w)
                             (CommentForm.comment_text form)
                             (User.id user) post_id])%list)
  /\ (forall user, current_user w = Some user ->
        post_id ∈ BlogPost.id <$> blog_posts w ->
        method req = POST ->
        blank (CommentForm.comment_text form) = false ->
        comments (snd r) <> comments w).
Proof.
  cbn zeta. destruct w as [us ps cs cu fl].
  unfold show_post. run_handler. cbn [blog_posts comments users current_user].
  destruct (get_post post_id _) as [post|] eqn:Hget.
  - destruct (get_post_Some _ _ _ Hget) as [Hid Hin]. cbn in Hin.
    assert (Hmem : post_id ∈ BlogPost.id <$> ps)
      by (rewrite <- Hid; apply list_elem_of_fmap_2, Hin).
    unfold is_submitted, CommentForm.validate.
    rewrite DataRequired_visible.
    destruct (method req) eqn:Hmethod; cbn [andb].
    + cbn. repeat split; auto; intros; congruence.
    + destruct (blank (CommentForm.comment_text form)) eqn:Hblank; cbn [negb].
      * cbn. repeat split; auto; intros; congruence.
      * destruct cu as [user|]; cbn.
        -- rewrite Hid. repeat split; eauto 10.
           intros user' _ _ _ _ Hsame.
           apply (f_equal length) in Hsame. rewrite length_app in Hsame.
           cbn in Hsame. lia.
        -- repeat split; auto; intros; congruence.
  - cbn. repeat split; auto.
    intros user _ Hmem _ _ _.
    apply list_elem_of_fmap in Hmem as (p & Hp & Hin).
    assert (Hnone := head_filter_None (fun p => BlogPost.id p = post_id) ps).
    apply (Hnone Hget p Hin). auto.
Qed.

(** X22: commenting keeps the foreign keys: with a session identity that is a
    row of the users table, a request that finds every reference valid
    leaves every reference valid. *)
Theorem show_post_keeps_foreign_keys (post_id : Z) (req : Request)
    (form : CommentForm.t) (w : World) :
  foreign_keys_hold w ->
  (forall user, current_user w = Some user ->
                User.id user ∈ User.id <$> users w) ->
  foreign_keys_hold (snd (show_post post_id req form w)).
Proof.
  intros Hfk Hsession.
  destruct (show_post_frame post_id req form w)
    as (Hu & Hp & [Hc|(user & Hme & Hmem & Hc)]).
  - apply (foreign_keys_same_tables w); trivial.
  - destruct Hfk as (Hposts & Hauthors & Hparents).
    unfold foreign_keys_hold. rewrite Hu, Hp, Hc. split; [exact Hposts|].
    split; apply Forall_app; split; trivial;
      apply Forall_singleton; cbn; auto.
Qed.

End ContentFacts.

Section PostFacts.
Context {url_validator : UrlValidator}.

(** The row [update_post] writes in place of [p]. *)
Lemma update_post_id (post : BlogPost.t) (form : CreatePostForm.t)
    (editor : User.t) (w : World) :
  BlogPost.id <$> blog_posts (snd (update_post post form editor w)) =
  BlogPost.id <$> blog_posts w.
Proof.
  unfold update_post. cbn. rewrite <- list_fmap_compose.
  apply list_fmap_ext. intros i p _. cbn. case_bool_decide; reflexivity.
Qed.

Lemma update_post_titles (k : Z) (new_title : string)
    (f : BlogPost.t -> BlogPost.t) (l : list BlogPost.t) :
  (forall p, BlogPost.id p = k -> BlogPost.title (f p) = new_title) ->
  (forall p, BlogPost.id p <> k -> f p = p) ->
  NoDup (BlogPost.id <$> l) ->
  NoDup (BlogPost.title <$> l) ->
  new_title ∉ BlogPost.title <$> filter (fun p => BlogPost.id p <> k) l ->
  NoDup (BlogPost.title <$> (f <$> l)).
Proof.
  intros Hhit Hmiss. induction l as [|p l IH]; [constructor|].
  rewrite !fmap_cons, !NoDup_cons. intros [Hid Hids] [Htitle Htitles] Hnew.
  assert (Hin : forall t, t ∈ BlogPost.title <$> (f <$> l) ->
                          t = new_title \/ t ∈ BlogPost.title <$> l).
  { intros t Ht. apply list_elem_of_fmap in Ht as (q' & -> & Hq').
    apply list_elem_of_fmap in Hq' as (q & -> & Hq).
    destruct (decide (BlogPost.id q = k)) as [Hk|Hk].
    - left. apply Hhit, Hk.
    - right. rewrite (Hmiss q Hk). apply list_elem_of_fmap_2, Hq. }
  destruct (decide (BlogPost.id p = k)) as [Hk|Hk].
  - assert (Hrest : f <$> l = l).
    { rewrite <- (list_fmap_id l) at 2. apply list_fmap_ext.
      intros i q Hq. apply Hmiss. intros Hqk. apply Hid.
      rewrite Hk, <- Hqk. apply list_elem_of_fmap_2.
      apply list_elem_of_lookup. eauto. }
    rewrite Hrest, (Hhit p Hk). split; [|exact Htitles].
    rewrite filter_cons_False in Hnew by auto.
    intros Hin'. apply Hnew.
    apply list_elem_of_fmap in Hin' as (q & Hq & Hql).
    rewrite Hq. apply list_elem_of_fmap_2, list_elem_of_filter. split; [|exact Hql].
    intros Hqk. apply Hid. rewrite Hk, <- Hqk. apply list_elem_of_fmap_2, Hql.
  - rewrite filter_cons_True, fmap_cons, not_elem_of_cons in Hnew by exact Hk.
    destruct Hnew as [Hne Hnew]. rewrite (Hmiss p Hk). split.
    + intros Ht. apply Hin in Ht as [Ht|Ht]; [congruence|auto].
    + apply IH; assumption.
Qed.

(** The tables after the three post routes. *)
Lemma add_new_post_frame (today : string) (req : Request)
    (form : CreatePostForm.t) (w : World) :
  let w' := snd (add_new_post today req form w) in
  users w' = users w /\ comments w' = comments w
  /\ current_user w' = current_user w
  /\ (blog_posts w' = blog_posts w
      \/ exists user,
           current_user w = Some user
           /\ (User.category user = Some "executive"
               \/ User.category user = Some "director")
           /\ (CreatePostForm.title form ∉ BlogPost.title <$> blog_posts w)
           /\ blog_posts w' =
              (blog_posts w ++
                 [BlogPost.mk (next_post_id w) (User.id user)
                              (CreatePostForm.title form)
                              (CreatePostForm.subtitle form) today
                              (CreatePostForm.body form)
                              (CreatePostForm.img_url form)])%list).
Proof.
  cbn zeta. destruct w as [us ps cs [me|] fl]; [|cbn; auto].
  unfold add_new_post, roles_required, add_new_post_view. run_handler. cbn.
  destruct (in_roles (User.category me) ["executive"; "director"]) eqn:Hin;
    cbn; [|auto].
  destruct (is_submitted req && CreatePostForm.validate form); cbn; [|auto].
  case_bool_decide as Htitle; cbn; [auto|].
  repeat split. right. exists me. repeat split; trivial.
  unfold in_roles in Hin. destruct (User.category me) as [c|]; [|discriminate].
  apply bool_decide_eq_true_1 in Hin.
  rewrite !elem_of_cons, elem_of_nil in Hin.
  destruct Hin as [->|[->|[]]]; auto.
Qed.

(** X23: a post is created only for an executive or a director, and only
    under a title that no post has yet; the new row is then the last of
    the table, authored by the caller and dated today.  Users, comments
    and the session identity never change. *)
Theorem add_new_post_writes (today : string) (req : Request)
    (form : CreatePostForm.t) (w : World) :
  let w' := snd (add_new_post today req form w) in
  users w' = users w /\ comments w' = comments w
  /\ current_user w' = current_user w
  /\ (blog_posts w' = blog_posts w
      \/ exists user,
           current_user w = Some user
           /\ (User.category user = Some "executive"
               \/ User.category user = Some "director")
           /\ (CreatePostForm.title form ∉ BlogPost.title <$> blog_posts w)
           /\ blog_posts w' =
              (blog_posts w ++
                 [BlogPost.mk (next_post_id w) (User.id user)
                              (CreatePostForm.title form)
                              (CreatePostForm.subtitle form) today
                              (CreatePostForm.body form)
                              (CreatePostForm.img_url form)])%list).
Proof. apply add_new_post_frame. Qed.

Lemma edit_post_frame (post_id : Z) (req : Request)
    (sent : PostFields.t) (w : World) :
  let w' := snd (edit_post post_id req sent w) in
  users w' = users w /\ comments w' = comments w
  /\ (blog_posts w' = blog_posts w
      \/ exists post editor,
           current_user w = Some editor
           /\ get_post post_id w = Some post
           /\ (CreatePostForm.title (edit_form post sent) ∉
                BlogPost.title <$>
                  filter (fun p => BlogPost.id p <> BlogPost.id post) (blog_posts w))
           /\ blog_posts w' =
              blog_posts (snd (update_post post (edit_form post sent) editor w))).
Proof.
  cbn zeta. destruct w as [us ps cs [me|] fl]; [|cbn; auto].
  unfold edit_post, roles_required, edit_post_view. run_handler. cbn.
  destruct (in_roles (User.category me) ["executive"; "director"]); cbn; [|auto].
  destruct (get_post post_id _) as [post|] eqn:Hget; cbn; [|auto].
  destruct (is_submitted req && CreatePostForm.validate _); cbn; [|auto].
  case_bool_decide as Htitle; cbn; [auto|].
  repeat split. right. exists post, me. repeat split; trivial.
Qed.

(** X24: the three post routes keep the unique columns of the posts table
    unique: if no two posts share an id or a title before the request,
    none do after creating, editing or deleting, whatever the request
    holds. *)
Theorem post_routes_keep_unique_posts (today : string) (req : Request)
    (form : CreatePostForm.t) (post_id : Z) (sent : PostFields.t) (w : World) :
  unique_posts w ->
  unique_posts (snd (add_new_post today req form w))
  /\ unique_posts (snd (edit_post post_id req sent w))
  /\ unique_posts (snd (delete_post post_id req w)).
Proof.
  intros [Hids Htitles]. unfold unique_posts. split; [|split].
  - destruct (add_new_post_frame today req form w)
      as (_ & _ & _ & [->|(user & _ & _ & Hfresh & ->)]); [auto|].
    rewrite !fmap_app. cbn.
    split; apply NoDup_snoc_fresh; trivial.
    intros Hin. apply max_id_bound in Hin. unfold next_post_id in Hin. lia.
  - destruct (edit_post_frame post_id req sent w)
      as (_ & _ & [->|(post & editor & _ & _ & Hfresh & ->)]); [auto|].
    split; [rewrite update_post_id; exact Hids|].
    unfold update_post. cbn.
    apply (update_post_titles (BlogPost.id post)
             (CreatePostForm.title (edit_form post sent))); trivial.
    + intros p Hp. rewrite bool_decide_eq_true_2 by exact Hp. reflexivity.
    + intros p Hp. rewrite bool_decide_eq_false_2 by exact Hp. reflexivity.
  - destruct (delete_post_tables post_id req w)
      as (w0 & [->|[post ->]] & _ & -> & _); [auto|].
    unfold delete_post_row. destruct (delete_post_blocked _ w); cbn; [auto|].
    split; apply NoDup_fmap_filter; trivial.
Qed.

End PostFacts.

Section EditFacts.
Context {url_validator : UrlValidator}.

Lemma head_filter_fmap_id (k : Z) (f : BlogPost.t -> BlogPost.t)
    (l : list BlogPost.t) :
  (forall p, BlogPost.id (f p) = BlogPost.id p) ->
  head (filter (fun p => BlogPost.id p = k) (f <$> l)) =
  f <$> head (filter (fun p => BlogPost.id p = k) l).
Proof.
  intros Hid. induction l as [|p l IH]; [reflexivity|].
  rewrite fmap_cons, !filter_cons, Hid.
  destruct (decide (BlogPost.id p = k)); [reflexivity|exact IH].
Qed.

(** What an edit that goes through answers and leaves. *)
Lemma edit_post_success (post_id : Z) (req : Request) (sent : PostFields.t)
    (w : World) (editor : User.t) (post : BlogPost.t) :
  current_user w = Some editor ->
  User.category editor = Some "executive"
  \/ User.category editor = Some "director" ->
  get_post post_id w = Some post ->
  is_submitted req && CreatePostForm.validate (edit_form post sent) = true ->
  (CreatePostForm.title (edit_form post sent) ∉
     BlogPost.title <$>
       filter (fun p => BlogPost.id p <> BlogPost.id post) (blog_posts w)) ->
  edit_post post_id req sent w =
  (Redirect (UrlFor "blog.show_post" [("post_id", pretty post_id)]),
   snd (update_post post (edit_form post sent) editor w)).
Proof.
  intros Hme Hcat Hget Hvalid Hfresh. unfold edit_post.
  rewrite (roles_required_allows _ _ _ _ editor Hme)
    by (destruct Hcat as [-> | ->]; reflexivity).
  destruct (get_post_Some _ _ _ Hget) as [Hid _].
  unfold edit_post_view. run_handler. rewrite Hget. cbn zeta. rewrite Hvalid, Hme.
  rewrite bool_decide_eq_false_2 by exact Hfresh. rewrite Hid. reflexivity.
Qed.

(** X25: an edit that goes through makes the editor the author of the post:
    the row keeps its id and its date, takes the submitted values (its
    own for the fields that were not sent) and has the caller as
    author, whoever wrote it; users and comments are untouched and the
    number of posts is the same. *)
Theorem edit_post_transfers_authorship (post_id : Z) (req : Request)
    (sent : PostFields.t) (w : World) (editor : User.t) (post : BlogPost.t) :
  current_user w = Some editor ->
  User.category editor = Some "executive"
  \/ User.category editor = Some "director" ->
  get_post post_id w = Some post ->
  is_submitted req && CreatePostForm.validate (edit_form post sent) = true ->
  (CreatePostForm.title (edit_form post sent) ∉
     BlogPost.title <$>
       filter (fun p => BlogPost.id p <> BlogPost.id post) (blog_posts w)) ->
  let w' := snd (edit_post post_id req sent w) in
  get_post post_id w' =
    Some (BlogPost.mk post_id (User.id editor)
            (default (BlogPost.title post) (PostFields.title sent))
            (default (BlogPost.subtitle post) (PostFields.subtitle sent))
            (BlogPost.date post)
            (default (BlogPost.body post) (PostFields.body sent))
            (default (BlogPost.img_url post) (PostFields.img_url sent)))
  /\ length (blog_posts w') = length (blog_posts w)
  /\ users w' = users w /\ comments w' = comments w.
Proof.
  intros Hme Hcat Hget Hvalid Hfresh. cbn zeta.
  rewrite (edit_post_success _ _ _ _ _ _ Hme Hcat Hget Hvalid Hfresh). cbn [snd].
  destruct (get_post_Some _ _ _ Hget) as [Hid _].
  unfold update_post. cbn [snd users comments blog_posts].
  split; [|split; [apply length_fmap|auto]].
  unfold get_post in *. cbn [blog_posts].
  rewrite head_filter_fmap_id by (intros p; case_bool_decide; reflexivity).
  rewrite Hget. cbn [fmap option_fmap option_map].
  rewrite bool_decide_eq_true_2 by reflexivity. rewrite Hid. reflexivity.
Qed.

(** X26: since an edit transfers authorship and a user's posts are
    deleted with the user, what an edit did decides what a later delete
    of the editor's account does.  When no comment of another user sits
    on a post of the editor's, the delete goes through and the edited
    post goes with the account, whoever wrote it first.  When another
    user has commented on the edited post, the delete ends in a server
    error and nothing is deleted. *)
Theorem edit_then_delete_editor (post_id : Z) (req req' : Request)
    (sent : PostFields.t) (w : World) (editor admin : User.t)
    (post : BlogPost.t) :
  current_user w = Some editor ->
  User.category editor = Some "executive"
  \/ User.category editor = Some "director" ->
  get_post post_id w = Some post ->
  is_submitted req && CreatePostForm.validate (edit_form post sent) = true ->
  (CreatePostForm.title (edit_form post sent) ∉
     BlogPost.title <$>
       filter (fun p => BlogPost.id p <> BlogPost.id post) (blog_posts w)) ->
  User.category admin = Some "executive" ->
  User.id editor <> User.id admin ->
  editor ∈ users w ->
  let w1 := snd (edit_post post_id req sent w) in
  let w2 := mkWorld (users w1) (blog_posts w1) (comments w1) (Some admin)
                    (flashes w1) in
  let r := delete_user (User.id editor) req' w2 in
  ((forall c p, c ∈ comments w1 -> Comment.author_id c <> User.id editor ->
                p ∈ blog_posts w1 -> BlogPost.author_id p = User.id editor ->
                Comment.post_id c <> BlogPost.id p) ->
     fst r = Redirect (UrlFor "blog.admin_dashboard" [])
     /\ get_post post_id (snd r) = None)
  /\ ((exists c, c ∈ comments w /\ Comment.author_id c <> User.id editor
                 /\ Comment.post_id c = post_id) ->
      r = (Abort 500, w2)).
Proof.
  intros Hme Hcat Hget Hvalid Hfresh Hadmin Hother Hin. cbn zeta.
  rewrite (edit_post_success _ _ _ _ _ _ Hme Hcat Hget Hvalid Hfresh). cbn [snd].
  destruct (get_post_Some _ _ _ Hget) as [Hid Hpost].
  unfold update_post. cbn [snd users comments blog_posts flashes].
  set (f := fun p : BlogPost.t =>
              if bool_decide (BlogPost.id p = BlogPost.id post)
              then BlogPost.mk (BlogPost.id p) (User.id editor)
                               (CreatePostForm.title (edit_form post sent))
                               (CreatePostForm.subtitle (edit_form post sent))
                               (BlogPost.date p)
                               (CreatePostForm.body (edit_form post sent))
                               (CreatePostForm.img_url (edit_form post sent))
              else p).
  set (w2 := mkWorld _ _ _ _ _).
  destruct (get_user (User.id editor) w2) as [target|] eqn:Htarget.
  2:{ exfalso.
      apply (head_filter_None (fun u => User.id u = User.id editor) (users w)
               Htarget editor Hin). reflexivity. }
  split.
  - intros Hfree.
    assert (Hfree' : delete_user_blocked (User.id editor) w2 = false)
      by (apply delete_user_blocked_false; exact Hfree).
    rewrite (delete_user_runs req' w2 admin target (User.id editor)
               eq_refl Hadmin Hother Htarget Hfree').
    cbn [fst snd]. split; [reflexivity|].
    unfold flashed, flash, get_post, w2.
    cbn [snd fst users comments blog_posts flashes].
    destruct (filter _ (filter _ _)) as [|p rest] eqn:Hleft; [reflexivity|].
    exfalso.
    assert (Hp : p ∈ p :: rest) by (left).
    rewrite <- Hleft in Hp.
    apply list_elem_of_filter in Hp as [Hpid Hp].
    apply list_elem_of_filter in Hp as [Hauthor Hp].
    apply list_elem_of_fmap in Hp as (q & -> & Hq).
    unfold f in Hauthor, Hpid.
    case_bool_decide as Hq_id; [apply Hauthor; reflexivity|].
    apply Hq_id. congruence.
  - intros (c & Hc & Hauthor & Hon).
    apply (delete_user_fails req' w2 admin target (User.id editor));
      trivial.
    apply delete_user_blocked_true. exists c, (f post).
    split; [exact Hc|]. split; [exact Hauthor|].
    split; [apply (list_elem_of_fmap_2 f), Hpost|].
    unfold f. rewrite bool_decide_eq_true_2 by reflexivity. cbn.
    split; [reflexivity|congruence].
Qed.

End EditFacts.

(** ** Worked examples for the properties above *)

Section Examples.
Import Samples.

Lemma office_foreign_keys (session : option User.t) :
  foreign_keys_hold
    (mkWorld [ada; dora] [post_by_dora; post_by_ada]
             [comment_by_dora; comment_by_ada] session []).
Proof.
  unfold foreign_keys_hold.
  repeat split; repeat (apply Forall_cons; split); try apply Forall_nil;
    cbn; rewrite ?elem_of_cons; tauto.
Qed.

Lemma calm_foreign_keys (session : option User.t) :
  foreign_keys_hold
    (mkWorld [ada; dora] [post_by_dora; post_by_ada]
             [comment_by_dora; comment_on_own] session []).
Proof.
  unfold foreign_keys_hold.
  repeat split; repeat (apply Forall_cons; split); try apply Forall_nil;
    cbn; rewrite ?elem_of_cons; tauto.
Qed.

Lemma office_unique_posts (session : option User.t) :
  unique_posts
    (mkWorld [ada; dora] [post_by_dora; post_by_ada]
             [comment_by_dora; comment_by_ada] session []).
Proof.
  split; apply (bool_decide_unpack _); vm_compute; exact I.
Qed.

End Examples.

Lemma validate_pin_iff_witness : Validators.validate_pin "123456" = true.
Proof.
  apply (proj2 (validate_pin_iff "123456")). left. vm_compute. reflexivity.
Defined.

Lemma RegisterForm_validate_iff_witness :
  blank (RegisterForm.badge (Samples.form_eve "1234")) = false.
Proof.
  destruct (proj1 (RegisterForm_validate_iff (Samples.form_eve "1234")))
    as (_ & _ & _ & Hbadge & _).
  - vm_compute. reflexivity.
  - exact Hbadge.
Defined.

Lemma LoginForm_validate_iff_witness :
  LoginForm.validate Samples.form_ada = true.
Proof.
  apply (proj2 (LoginForm_validate_iff Samples.form_ada)).
  split; vm_compute; reflexivity.
Defined.

Lemma executive_only_routes_witness :
  @delete_post 10 (Samples.post_form "/delete/10" None) Samples.office_dora =
    (Abort 403, Samples.office_dora)
  /\ delete_user 1 (Samples.post_form "/admin/delete_user/1" None)
                 Samples.office_dora = (Abort 403, Samples.office_dora).
Proof.
  destruct (executive_only_routes
              (Samples.post_form "/delete/10" None) Samples.office_dora 10 1)
    as (Hpost & _).
  { intros me Hme. injection Hme as <-. discriminate. }
  destruct (executive_only_routes
              (Samples.post_form "/admin/delete_user/1" None)
              Samples.office_dora 10 1) as (_ & Huser & _).
  { intros me Hme. injection Hme as <-. discriminate. }
  split; [exact Hpost|exact Huser].
Defined.

Lemma author_only_routes_witness :
  @add_new_post Samples.http_only "May 03, 2024"
     (Samples.post_form "/new-post" None) Samples.form_levers
     Samples.office_eve = (Abort 403, Samples.office_eve).
Proof.
  destruct (@author_only_routes Samples.http_only "May 03, 2024"
              (Samples.post_form "/new-post" None) Samples.office_eve
              Samples.form_levers 10 Samples.sent_body) as (Hadd & _).
  { intros me Hme. injection Hme as <-. split; discriminate. }
  exact Hadd.
Defined.

Lemma delete_user_unknown_id_witness :
  delete_user 99 (Samples.post_form "/admin/delete_user/99" None)
              Samples.office_ada = (Abort 404, Samples.office_ada).
Proof.
  apply (delete_user_unknown_id _ Samples.office_ada Samples.ada 99).
  - reflexivity.
  - reflexivity.
  - discriminate.
  - vm_compute. reflexivity.
Defined.

Lemma delete_user_keeps_foreign_keys_witness :
  foreign_keys_hold
    (snd (delete_user 2 (Samples.post_form "/admin/delete_user/2" None)
                      Samples.calm_ada))
  /\ User.id <$>
       users (snd (delete_user 2 (Samples.post_form "/admin/delete_user/2" None)
                               Samples.calm_ada)) = [1%Z].
Proof.
  split; [|vm_compute; reflexivity].
  apply delete_user_keeps_foreign_keys.
  apply (calm_foreign_keys (Some Samples.ada)).
Defined.

Lemma delete_post_keeps_foreign_keys_witness :
  foreign_keys_hold
    (snd (delete_post 10 (Samples.get_page "/delete/10") Samples.calm_ada))
  /\ BlogPost.id <$>
       blog_posts (snd (delete_post 10 (Samples.get_page "/delete/10")
                                    Samples.calm_ada)) = [11%Z].
Proof.
  split; [|vm_compute; reflexivity].
  apply delete_post_keeps_foreign_keys.
  apply (calm_foreign_keys (Some Samples.ada)).
Defined.

Lemma delete_post_blocked_by_comments_witness :
  delete_post 10 (Samples.get_page "/delete/10") Samples.office_ada =
    (Abort 500, Samples.office_ada)
  /\ blog_posts (snd (delete_post 10 (Samples.get_page "/delete/10")
                                  Samples.calm_ada)) = [Samples.post_by_ada]
  /\ comments (snd (delete_post 10 (Samples.get_page "/delete/10")
                                Samples.calm_ada)) = comments Samples.calm_ada.
Proof.
  destruct (delete_post_blocked_by_comments 10 (Samples.get_page "/delete/10")
              Samples.office_ada Samples.ada Samples.post_by_dora)
    as (Hrefused & _); [reflexivity|reflexivity|vm_compute; reflexivity|].
  destruct (delete_post_blocked_by_comments 10 (Samples.get_page "/delete/10")
              Samples.calm_ada Samples.ada Samples.post_by_dora)
    as (_ & Hgone); [reflexivity|reflexivity|vm_compute; reflexivity|].
  split.
  { apply Hrefused. exists Samples.comment_by_ada. split; [|reflexivity].
    cbn. rewrite !elem_of_cons. tauto. }
  destruct Hgone as (_ & Hposts & _ & _ & Hcomments & _).
  { intros c Hc. cbn in Hc. rewrite !elem_of_cons, elem_of_nil in Hc.
    destruct Hc as [->|[->|[]]]; discriminate. }
  split; [rewrite Hposts; vm_compute; reflexivity|exact Hcomments].
Defined.

Lemma show_post_writes_witness :
  comments (snd (show_post 11 (Samples.post_form "/post/11" None)
                           Samples.form_comment Samples.office_eve)) <>
  comments Samples.office_eve.
Proof.
  destruct (show_post_writes 11 (Samples.post_form "/post/11" None)
              Samples.form_comment Samples.office_eve)
    as (_ & _ & _ & _ & Hwritten).
  apply (Hwritten Samples.eve).
  - reflexivity.
  - cbn. rewrite !elem_of_cons. tauto.
  - reflexivity.
  - vm_compute. reflexivity.
Defined.

Lemma show_post_keeps_foreign_keys_witness :
  foreign_keys_hold
    (snd (show_post 11 (Samples.post_form "/post/11" None)
                    Samples.form_comment Samples.office_dora)).
Proof.
  apply show_post_keeps_foreign_keys.
  - apply (office_foreign_keys (Some Samples.dora)).
  - intros user Huser. injection Huser as <-.
    cbn. rewrite !elem_of_cons. tauto.
Defined.

Lemma post_routes_keep_unique_posts_witness :
  unique_posts
    (snd (@add_new_post Samples.http_only "May 03, 2024"
            (Samples.post_form "/new-post" None) Samples.form_levers
            Samples.office_dora)).
Proof.
  destruct (@post_routes_keep_unique_posts Samples.http_only "May 03, 2024"
              (Samples.post_form "/new-post" None) Samples.form_levers
              10 Samples.sent_body Samples.office_dora) as (Hadd & _).
  - apply (office_unique_posts (Some Samples.dora)).
  - exact Hadd.
Defined.

Lemma edit_post_transfers_authorship_witness :
  BlogPost.author_id <$>
    @get_post 11
      (snd (@edit_post Samples.http_only 11
              (Samples.post_form "/edit-post/11" None) Samples.sent_body
              Samples.office_dora)) = Some 2%Z.
Proof.
  destruct (@edit_post_transfers_authorship Samples.http_only 11
              (Samples.post_form "/edit-post/11" None) Samples.sent_body
              Samples.office_dora Samples.dora Samples.post_by_ada)
    as (Hrow & _).
  - reflexivity.
  - right. reflexivity.
  - vm_compute. reflexivity.
  - vm_compute. reflexivity.
  - apply (bool_decide_unpack _). vm_compute. exact I.
  - rewrite Hrow. reflexivity.
Defined.

Lemma edit_then_delete_editor_witness :
  get_post 11
    (snd (delete_user 2 (Samples.post_form "/admin/delete_user/2" None)
            (mkWorld
               (users (snd (@edit_post Samples.http_only 11
                              (Samples.post_form "/edit-post/11" None)
                              Samples.sent_body Samples.calm_dora)))
               (blog_posts (snd (@edit_post Samples.http_only 11
                              (Samples.post_form "/edit-post/11" None)
                              Samples.sent_body Samples.calm_dora)))
               (comments (snd (@edit_post Samples.http_only 11
                              (Samples.post_form "/edit-post/11" None)
                              Samples.sent_body Samples.calm_dora)))
               (Some Samples.ada)
               (flashes (snd (@edit_post Samples.http_only 11
                              (Samples.post_form "/edit-post/11" None)
                              Samples.sent_body Samples.calm_dora)))))) = None.
Proof.
  destruct (@edit_then_delete_editor Samples.http_only 11
              (Samples.post_form "/edit-post/11" None)
              (Samples.post_form "/admin/delete_user/2" None)
              Samples.sent_body Samples.calm_dora Samples.dora Samples.ada
              Samples.post_by_ada) as (Hgone & _).
  - reflexivity.
  - right. reflexivity.
  - vm_compute. reflexivity.
  - vm_compute. reflexivity.
  - apply (bool_decide_unpack _). vm_compute. exact I.
  - reflexivity.
  - discriminate.
  - cbn. rewrite !elem_of_cons. tauto.
  - apply Hgone.
    intros c p Hc Hauthor. vm_compute in Hc.
    apply list_elem_of_singleton in Hc. subst c. exfalso. apply Hauthor.
    reflexivity.
Defined.
